(** * sysconfig/cloudinit.go: cloud-init configuration, status and restriction

    A shallow embedding of [src/sysconfig/cloudinit.go] (package [sysconfig]
    of snapd) and the properties its specification states about it.

    Go strings are byte strings ([string]); a path is kept as the list of
    its components; the file system is a finite map from paths to nodes;
    functions that touch the file system or run the agent are written in a
    state monad over [World]. *)

From Stdlib Require Import ZArith Ascii String.
From stdpp Require Import gmap strings list sorting.

Set Warnings "-register-all,-clear-no-such-hyp".

Local Open Scope string_scope.
Local Open Scope list_scope.

(** ** Strings *)

Module GoString.

(** [strings.HasPrefix] / [strings.TrimPrefix] in one: the rest of [s]
    after [p] when [s] starts with [p]. *)
Fixpoint strip_prefix (p s : string) : option string :=
  match p with
  | EmptyString => Some s
  | String a p' =>
      match s with
      | EmptyString => None
      | String b s' => if Ascii.eqb a b then strip_prefix p' s' else None
      end
  end.

Definition has_suffix (suf s : string) : bool :=
  bool_decide (is_Some (strip_prefix (String.rev suf) (String.rev s))).

Definition byte_in (lo hi : N) (c : ascii) : bool :=
  ((lo <=? N_of_ascii c) && (N_of_ascii c <=? hi))%N.

Definition is_lower (c : ascii) : bool := byte_in 97 122 c.
Definition is_upper (c : ascii) : bool := byte_in 65 90 c.
Definition is_digit (c : ascii) : bool := byte_in 48 57 c.

(** the character class [[a-zA-Z0-9]] *)
Definition is_alnum (c : ascii) : bool := is_lower c || is_upper c || is_digit c.

Definition upper_byte (c : ascii) : ascii :=
  if is_lower c then ascii_of_N (N_of_ascii c - 32) else c.

(** [strings.ToUpper] as it is on ASCII strings: the letters a-z are mapped
    to A-Z, every other byte is kept. It serves the worked examples; the
    functions of the package take [strings.ToUpper] as a parameter. *)
Fixpoint ToUpperASCII (s : string) : string :=
  match s with
  | EmptyString => EmptyString
  | String c s' => String (upper_byte c) (ToUpperASCII s')
  end.

(** longest prefix of bytes satisfying [f], and what follows it *)
Fixpoint span (f : ascii → bool) (s : string) : string * string :=
  match s with
  | EmptyString => (EmptyString, EmptyString)
  | String c s' =>
      if f c then let '(a, b) := span f s' in (String c a, b)
      else (EmptyString, s)
  end.

Definition newline : ascii := "010"%char.

(** what "dot star" matches: a dot is any byte but a newline *)
Definition dot_star (s : string) : string :=
  fst (span (λ c, negb (Ascii.eqb c newline)) s).

(** [fmt.Sprintf(format, arg)] for a format with one [%s] verb *)
Fixpoint Sprintf_s (format arg : string) : string :=
  match format with
  | String "%" (String "s" rest) => arg +:+ rest
  | String c rest => String c (Sprintf_s rest arg)
  | EmptyString => EmptyString
  end.

(** [strings.Split(s, "/")] *)
Fixpoint split_slash (cur s : string) : list string :=
  match s with
  | EmptyString => [String.rev cur]
  | String c s' =>
      if Ascii.eqb c "/" then String.rev cur :: split_slash EmptyString s'
      else split_slash (String c cur) s'
  end.

End GoString.
Import GoString.

(** ** Regular expressions of the package *)

Module Regexp.

(** [datasourceRe], the pattern "DataSource" followed by a group of one
    or more of [a-zA-Z0-9] and by the rest of the line, tried at the
    start of [s]: the whole match and the group. The group is greedy and
    the rest of the line is accepted whatever it is, so the first attempt
    of the matcher is the match. *)
Definition datasourceRe_here (s : string) : option (list string) :=
  match strip_prefix "DataSource" s with
  | Some rest =>
      let '(name, tail) := span is_alnum rest in
      if decide (name = "") then None
      else Some ["DataSource" +:+ name +:+ dot_star tail; name]
  | None => None
  end.

(** [datasourceRe.FindStringSubmatch(s)]: the leftmost match, [nil]
    (the empty list) when there is none. *)
Fixpoint datasourceRe_FindStringSubmatch (s : string) : list string :=
  match datasourceRe_here s with
  | Some m => m
  | None =>
      match s with
      | EmptyString => []
      | String _ s' => datasourceRe_FindStringSubmatch s'
      end
  end.

(** [cloudInitStatusRe], the multi-line pattern "^status: " followed by
    a group for the rest of the line and "$": [bol] tells whether the
    position is at the beginning of a line. *)
Fixpoint cloudInitStatusRe_from (bol : bool) (s : string) : list string :=
  match (if bol then strip_prefix "status: " s else None) with
  | Some rest => let w := dot_star rest in ["status: " +:+ w; w]
  | None =>
      match s with
      | EmptyString => []
      | String c s' => cloudInitStatusRe_from (Ascii.eqb c newline) s'
      end
  end.

(** [cloudInitStatusRe.FindSubmatch(out)] *)
Definition cloudInitStatusRe_FindSubmatch (out : string) : list string :=
  cloudInitStatusRe_from true out.

End Regexp.
Import Regexp.

(** ** Paths *)

Abbreviation path := (list string) (only parsing).

Module Filepath.

(** one component appended to a cleaned path, as [filepath.Clean] treats
    it: empty and [.] components vanish, [..] removes the last one *)
Definition step (p : path) (c : string) : path :=
  if decide (c = "") then p
  else if decide (c = ".") then p
  else if decide (c = "..") then removelast p
  else p ++ [c].

(** [filepath.Join(dir, elem)], [dir] already cleaned; a relative path is
    taken from the root. *)
Definition Join (dir : path) (elem : string) : path :=
  fold_left step (split_slash EmptyString elem) dir.

(** the cleaned path of a Go path string *)
Definition Clean (s : string) : path := Join [] s.

(** [filepath.Dir] *)
Definition Dir (p : path) : path := removelast p.

(** [filepath.Base] of a path with at least one component *)
Definition Base (p : path) : string := List.last p "/".

End Filepath.

(** ** Errors *)

Inductive Errno := ENOENT | ENOTDIR | EISDIR | EEXIST.

(** Go [error] values: [option error] is an [error] that may be [nil]. *)
Inductive error :=
| PathError (op : string) (p : path) (e : Errno)
    (** [*os.PathError] *)
| LibraryError (msg : string)
    (** an error of a decoder or of [os/exec] *)
| Errorf (format : string)
    (** [fmt.Errorf(format)] *)
| ErrorfV (format : string) (cause : error)
    (** [fmt.Errorf(format, err)] with one [%v] *)
| ErrorfQ (format : string) (arg : string)
    (** [fmt.Errorf(format, s)] with one [%q] or [%s] *)
| OutputErr (output : string) (cause : error)
    (** [osutil.OutputErr(output, err)] *)
| OutputErrNil (output : string).
    (** [osutil.OutputErr(output, nil)] *)

(** ** The file system and the host *)

Inductive node :=
| File (data : string)
| Directory.

Global Instance node_eq_dec : EqDecision node.
Proof. solve_decision. Defined.

Abbreviation FS := (gmap (list string) node) (only parsing).

(** The state the package acts on: the files, and the commands that were
    run ([exec.Command(...).CombinedOutput()]), latest first. *)
Record World := mkWorld {
  files : FS;
  execs : list (list string);
}.

Module Fs.

(** [os.Stat]: the root is a directory. *)
Definition stat (fs : FS) (p : path) : option node :=
  match p with
  | [] => Some Directory
  | _ => fs !! p
  end.

Definition is_dir (fs : FS) (p : path) : bool :=
  bool_decide (stat fs p = Some Directory).

(** the maps that are file trees: every entry lies in a directory *)
Definition wf (fs : FS) : Prop :=
  map_Forall (λ p _, p ≠ [] ∧ is_dir fs (removelast p) = true) fs.

Global Instance wf_dec (fs : FS) : Decision (wf fs).
Proof. unfold wf. apply _. Defined.

(** [os.MkdirAll]: walks down from [done], creating what is missing; a
    regular file on the way is an error. *)
Fixpoint mkdir_all (done : path) (rest : list string) (fs : FS) : error + FS :=
  match rest with
  | [] => inr fs
  | c :: rest' =>
      let q := done ++ [c] in
      match fs !! q with
      | Some Directory => mkdir_all q rest' fs
      | Some (File _) => inl (PathError "mkdir" q ENOTDIR)
      | None => mkdir_all q rest' (<[q := Directory]> fs)
      end
  end.

Definition is_file (fs : FS) (p : path) : bool :=
  match stat fs p with
  | Some (File _) => true
  | _ => false
  end.

(** why a path cannot be reached: ENOTDIR when a regular file stands at one
    of the directories on the way to it, ENOENT otherwise *)
Definition errno_unreachable (fs : FS) (p : path) : Errno :=
  if existsb (λ k, is_file fs (take k p)) (seq 1 (length p - 1)) then ENOTDIR
  else ENOENT.

(** [os.Open]: the node the handle reads from *)
Definition open (fs : FS) (p : path) : error + node :=
  match stat fs p with
  | Some n => inr n
  | None => inl (PathError "open" p (errno_unreachable fs p))
  end.

(** [ioutil.WriteFile]: creates or truncates the file; its directory
    has to exist. *)
Definition write_file (fs : FS) (p : path) (data : string) : error + FS :=
  match p with
  | [] => inl (PathError "open" p EISDIR)
  | _ =>
      match stat fs (removelast p) with
      | Some Directory =>
          match fs !! p with
          | Some Directory => inl (PathError "open" p EISDIR)
          | _ => inr (<[p := File data]> fs)
          end
      | _ => inl (PathError "open" p (errno_unreachable fs p))
      end
  end.

(** [ioutil.ReadFile] *)
Definition read_file (fs : FS) (p : path) : error + string :=
  match open fs p with
  | inr (File data) => inr data
  | inr Directory => inl (PathError "read" p EISDIR)
  | inl e => inl e
  end.

(** no regular file stands where [os.MkdirAll(p)] needs a directory *)
Definition can_mkdir_all (fs : FS) (p : path) : bool :=
  forallb (λ k, negb (is_file fs (take k p))) (seq 1 (length p)).

(** the directory of [p] exists and [p] is not itself a directory *)
Definition can_write (fs : FS) (p : path) : bool :=
  is_dir fs (removelast p) && negb (is_dir fs p).

(** the names in directory [d], in ascending order *)
Definition entries (fs : FS) (d : path) : list string :=
  merge_sort String.le
    (omap (λ p : list string,
             if decide (p ≠ [] ∧ removelast p = d) then Some (List.last p "") else None)
          (elements (dom fs))).

End Fs.

(** ** The state monad of the package's functions *)

Definition M (A : Type) : Type := World → A * World.

Global Instance M_ret : MRet M := λ A a w, (a, w).
Global Instance M_bind : MBind M :=
  λ A B f m w, let '(a, w') := m w in f a w'.

(** a change of the files that may fail; a failure changes nothing *)
Definition update_files (f : FS → error + FS) : M (option error) :=
  λ w, match f (files w) with
       | inl e => (Some e, w)
       | inr fs' => (None, mkWorld fs' (execs w))
       end.

(** [os.MkdirAll(p, 0755)] *)
Definition os_MkdirAll (p : path) : M (option error) :=
  update_files (Fs.mkdir_all [] p).

(** [ioutil.WriteFile(p, data, 0644)] *)
Definition ioutil_WriteFile (p : path) (data : string) : M (option error) :=
  update_files (λ fs, Fs.write_file fs p data).

(** [ioutil.ReadFile(p)] *)
Definition ioutil_ReadFile (p : path) : M (error + string) :=
  λ w, (Fs.read_file (files w) p, w).

(** [os.Open(p)]: the node that the handle reads from. *)
Definition os_Open (p : path) : M (error + node) :=
  λ w, (Fs.open (files w) p, w).

(** Modelled from the spec: [osutil.FileExists] is not under src/; a marker
    file is "present" (spec 4.3) when the path exists. *)
Definition osutil_FileExists (p : path) : M bool :=
  λ w, (bool_decide (is_Some (Fs.stat (files w) p)), w).

(** Modelled from the spec: [osutil.CopyFile] is not under src/; the
    document is "copied verbatim" (spec 4.2). With flags 0 the destination is
    created, never overwritten. *)
Definition osutil_CopyFile (src dst : path) : M (option error) :=
  update_files (λ fs,
    match Fs.read_file fs src with
    | inl e => inl e
    | inr data =>
        match Fs.stat fs dst with
        | Some _ => inl (PathError "open" dst EEXIST)
        | None => Fs.write_file fs dst data
        end
    end).

(** Modelled from the spec: [strutil.ListContains] is not under src/; the
    datasource "is one of the known local sources" (spec 4.4). *)
Definition strutil_ListContains (l : list string) (s : string) : bool :=
  bool_decide (s ∈ l).

(** Go slices that may be [nil] *)
Definition slice (A : Type) : Type := option (list A).

Definition slice_elems {A} (s : slice A) : list A := default [] s.

(** [append(s, x)] *)
Definition append {A} (s : slice A) (x : A) : slice A := Some (slice_elems s ++ [x]).

(** [sort.Strings(s)] *)
Definition sort_Strings (s : slice string) : slice string :=
  merge_sort String.le <$> s.

(** ** Types of the package *)

(** values of [interface{}] in a decoded document *)
Inductive yaml_value :=
| YScalar (s : string)
| YSeq (l : list yaml_value)
| YMap (l : list (string * yaml_value)).

Record supportedFilteredDatasource := {
  ConsumerKey : string;
  MetadataURL : string;
  TokenKey : string;
  TokenSecret : string;
}.

(** the fields [Type], [Endpoint], [ConsumerKey], [TokenKey], [TokenSecret] *)
Record supportedFilteredReporting := {
  reporting_Type : string;
  reporting_Endpoint : string;
  reporting_ConsumerKey : string;
  reporting_TokenKey : string;
  reporting_TokenSecret : string;
}.

(** [DatasourceList] is a pointer: [None] when the document does not set
    [datasource_list]. *)
Record supportedFilteredCloudConfig := {
  Datasource : gmap string supportedFilteredDatasource;
  Network : gmap string yaml_value;
  DatasourceList : option (list string);
  Reporting : gmap string supportedFilteredReporting;
}.

Record cloudDatasourcesInUseResult := {
  ExplicitlyAllowed : slice string;
  ExplicitlyNoneAllowed : bool;
  Mentioned : slice string;
}.

Record cloudInitConfigInstallOptions := {
  Prefix : string;
  Filter : bool;
  AllowedDatasources : slice string;
}.

(** [CloudInitState] is an [int]. *)
Definition CloudInitState : Type := Z.

Definition CloudInitDisabledPermanently : CloudInitState := 0%Z.
Definition CloudInitRestrictedBySnapd : CloudInitState := 1%Z.
Definition CloudInitUntriggered : CloudInitState := 2%Z.
Definition CloudInitDone : CloudInitState := 3%Z.
Definition CloudInitEnabled : CloudInitState := 4%Z.
Definition CloudInitNotFound : CloudInitState := 5%Z.
Definition CloudInitErrored : CloudInitState := 6%Z.

(** the field [DataSource] of [v1Data] *)
Record v1Data := { v1_DataSource : string }.

Record cloudInitStatus := { V1 : v1Data }.

Record CloudInitRestrictionResult := {
  Action : string;
  DataSource : string;
}.

Record CloudInitRestrictOptions := {
  ForceDisable : bool;
  DisableAfterLocalDatasourcesRun : bool;
}.

(** Modelled from the spec: [asserts.ModelGrade] is not under src/; the
    trust grade is one of secured, signed, dangerous (spec 3), and the code
    has a branch for any other value. *)
Inductive ModelGrade :=
| ModelSecured
| ModelSigned
| ModelDangerous
| ModelGradeOther (grade : string).

(** Modelled from the spec: [asserts.Model] is not under src/; the grade is
    an "attribute of the device model" (spec 3). *)
Record Model := { Grade : ModelGrade }.

(** Modelled from the spec: [Options] is not under src/; these are the
    fields [configureCloudInit] reads. *)
Record Options := {
  TargetRootDir : string;
  AllowCloudInit : bool;
  GadgetDir : string;
  CloudInitSrcDir : string;
}.

(** ** Package variables *)

Definition cloudInitSnapdRestrictFile : string := "/etc/cloud/cloud.cfg.d/zzzz_snapd.cfg".
Definition cloudInitDisabledFile : string := "/etc/cloud/cloud-init.disabled".

Definition nocloudRestrictYaml : string :=
  "datasource_list: [NoCloud]" +:+ String newline
  ("datasource:" +:+ String newline
  ("  NoCloud:" +:+ String newline
  ("    fs_label: null" +:+ String newline
  ("manual_cache_clean: true" +:+ String newline "")))).

Definition genericCloudRestrictYamlPattern : string :=
  "datasource_list: [%s]" +:+ String newline "".

Definition localDatasources : list string := ["NoCloud"; "None"].

(** the files of the package below a root directory (spec 6) *)
Definition restrictFile (root : path) : path :=
  root ++ ["etc"; "cloud"; "cloud.cfg.d"; "zzzz_snapd.cfg"].
Definition disabledFile (root : path) : path :=
  root ++ ["etc"; "cloud"; "cloud-init.disabled"].
Definition resultsFile (root : path) : path :=
  root ++ ["run"; "cloud-init"; "status.json"].
Definition cloudCfgDir (root : path) : path :=
  root ++ ["etc"; "cloud"; "cloud.cfg.d"].

(** the disable marker can be created below [root]: no regular file stands
    at a directory on the way to etc/cloud, and the marker is not a
    directory *)
Definition can_disable (fs : FS) (root : path) : bool :=
  Fs.can_mkdir_all fs (root ++ ["etc"; "cloud"])
  && negb (Fs.is_dir fs (disabledFile root)).

(** ** The functions of cloudinit.go *)

Section Sysconfig.

(** [dirs.GlobalRootDir], cleaned *)
Variable GlobalRootDir : list string.

(** [WritableDefaultsDir] of the package (sysconfig.go is not under
    src/): the directory, below a target root, that receives the
    configuration. *)
Variable WritableDefaultsDir : string → list string.

(** [yaml.Unmarshal(b, &cfg)] into a [supportedFilteredCloudConfig] *)
Variable yaml_Unmarshal : string → error + supportedFilteredCloudConfig.

(** [json.NewDecoder(f).Decode(&stat)] on a stream with these bytes *)
Variable json_Decode : string → error + cloudInitStatus.

(** [exec.LookPath]: the executable of that name, on the current files *)
Variable exec_LookPath : FS → string → error + string.

(** what running a command prints, and how it exits *)
Variable exec_CombinedOutput : FS → list string → string * option error.

(** [strings.ToUpper] *)
Variable ToUpper : string → string.

(** [filepath.Glob(pattern)] on the current files: the matches, sorted, and
    the error of a malformed pattern. The pattern is given by its
    components, the metacharacters of each left as they are. *)
Variable filepath_Glob : FS → list string → list (list string) * option error.

Definition Glob (pattern : path) : M (list (list string) * option error) :=
  λ w, (filepath_Glob (files w) pattern, w).

Definition LookPath (name : string) : M (error + string) :=
  λ w, (exec_LookPath (files w) name, w).

(** [exec.Command(name, args...).CombinedOutput()]; the run is recorded. *)
Definition CombinedOutput (argv : list string) : M (string * option error) :=
  λ w, (exec_CombinedOutput (files w) argv, mkWorld (files w) (argv :: execs w)).

(** reading the handle of [os.Open(p)] through the decoder *)
Definition Decode (p : path) (f : node) : error + cloudInitStatus :=
  match f with
  | File data => json_Decode data
  | Directory => inl (PathError "read" p EISDIR)
  end.

Definition HasGadgetCloudConf (gadgetDir : path) : M bool :=
  osutil_FileExists (Filepath.Join gadgetDir "cloud.conf").

Definition ubuntuDataCloudDir (rootdir : path) : path :=
  Filepath.Join rootdir "etc/cloud/".

Definition DisableCloudInit (rootDir : path) : M (option error) :=
  let ubuntuDataCloud := ubuntuDataCloudDir rootDir in
  err ← os_MkdirAll ubuntuDataCloud;
  match err with
  | Some err => mret (Some (ErrorfV "cannot make cloud config dir: %v" err))
  | None =>
      err ← ioutil_WriteFile (Filepath.Join ubuntuDataCloud "cloud-init.disabled") "";
      match err with
      | Some err => mret (Some (ErrorfV "cannot disable cloud-init: %v" err))
      | None => mret None
      end
  end.

(** [for ds := range keys { set[strings.ToUpper(ds)] = true }] *)
Definition upper_into (keys : list string) (set : gset string) : gset string :=
  foldl (λ acc ds, {[ToUpper ds]} ∪ acc) set keys.

(** [cloudDatasourcesInUse] once the document is decoded (from
    [res := &cloudDatasourcesInUseResult{}] on) *)
Definition datasourcesInUse (cfg : supportedFilteredCloudConfig)
  : cloudDatasourcesInUseResult :=
  let sourcesMentionedInCfg : gset string := ∅ in
  let sourcesMentionedInCfg :=
    upper_into (elements (dom (Datasource cfg))) sourcesMentionedInCfg in
  let sourcesMentionedInCfg :=
    upper_into (elements (dom (Reporting cfg))) sourcesMentionedInCfg in
  let '(allowed, noneAllowed, sourcesMentionedInCfg) :=
    match DatasourceList cfg with
    | Some l =>
        if (length l =? 0)%nat then (None, true, sourcesMentionedInCfg)
        else
          let explicitlyAllowed : gset string := upper_into l ∅ in
          (sort_Strings (foldl append (Some []) (elements explicitlyAllowed)),
           false,
           upper_into l sourcesMentionedInCfg)
    | None => (None, false, sourcesMentionedInCfg)
    end in
  let mentioned :=
    foldl (λ acc ds, append acc (ToUpper ds)) None (elements sourcesMentionedInCfg) in
  {| ExplicitlyAllowed := allowed;
     ExplicitlyNoneAllowed := noneAllowed;
     Mentioned := sort_Strings mentioned |}.

Definition cloudDatasourcesInUse (configFile : path)
  : M (error + cloudDatasourcesInUseResult) :=
  r ← ioutil_ReadFile configFile;
  match r with
  | inl err => mret (inl err)
  | inr b =>
      match yaml_Unmarshal b with
      | inl err => mret (inl err)
      | inr cfg => mret (inr (datasourcesInUse cfg))
      end
  end.

(** the loop of [installCloudInitCfgDir] *)
Fixpoint copyCfgFiles (ubuntuDataCloudCfgDir : path) (prefix : string)
    (ccl : list (list string)) : M (option error) :=
  match ccl with
  | [] => mret None
  | cc :: ccl' =>
      err ← osutil_CopyFile cc
              (Filepath.Join ubuntuDataCloudCfgDir (prefix +:+ Filepath.Base cc));
      match err with
      | Some err => mret (Some err)
      | None => copyCfgFiles ubuntuDataCloudCfgDir prefix ccl'
      end
  end.

Definition installCloudInitCfgDir (src targetdir : path)
    (opts : option cloudInitConfigInstallOptions) : M (option error) :=
  let opts :=
    default {| Prefix := ""; Filter := false; AllowedDatasources := None |} opts in
  '(ccl, err) ← Glob (Filepath.Join src "*.cfg");
  match err with
  | Some err => mret (Some err)
  | None =>
      if (length ccl =? 0)%nat then mret None
      else
        let ubuntuDataCloudCfgDir :=
          Filepath.Join (ubuntuDataCloudDir targetdir) "cloud.cfg.d/" in
        err ← os_MkdirAll ubuntuDataCloudCfgDir;
        match err with
        | Some err => mret (Some (ErrorfV "cannot make cloud config dir: %v" err))
        | None => copyCfgFiles ubuntuDataCloudCfgDir (Prefix opts) ccl
        end
  end.

Definition installGadgetCloudInitCfg (src targetdir : path)
  : M (error + cloudDatasourcesInUseResult) :=
  let ubuntuDataCloudCfgDir :=
    Filepath.Join (ubuntuDataCloudDir targetdir) "cloud.cfg.d/" in
  err ← os_MkdirAll ubuntuDataCloudCfgDir;
  match err with
  | Some err => mret (inl (ErrorfV "cannot make cloud config dir: %v" err))
  | None =>
      datasourcesRes ← cloudDatasourcesInUse src;
      match datasourcesRes with
      | inl err => mret (inl err)
      | inr datasourcesRes =>
          let configFile := Filepath.Join ubuntuDataCloudCfgDir "80_device_gadget.cfg" in
          err ← osutil_CopyFile src configFile;
          match err with
          | Some err => mret (inl err)
          | None => mret (inr datasourcesRes)
          end
      end
  end.

Definition configureCloudInit (model : Model) (opts : Options) : M (option error) :=
  if decide (TargetRootDir opts = "") then
    mret (Some (Errorf "unable to configure cloud-init, missing target dir"))
  else if negb (AllowCloudInit opts) then
    DisableCloudInit (WritableDefaultsDir (TargetRootDir opts))
  else
    let grade := Grade model in
    hasGadget ← HasGadgetCloudConf (Filepath.Clean (GadgetDir opts));
    err ← (if hasGadget : bool then
             let gadgetCloudConf :=
               Filepath.Join (Filepath.Clean (GadgetDir opts)) "cloud.conf" in
             r ← installGadgetCloudInitCfg gadgetCloudConf
                   (WritableDefaultsDir (TargetRootDir opts));
             mret (match r with inl err => Some err | inr _ => None end)
           else mret None);
    match err with
    | Some err => mret (Some err)
    | None =>
        let installOpts :=
          {| Prefix := "90_"; Filter := false; AllowedDatasources := None |} in
        match grade with
        | ModelSecured => mret None
        | ModelSigned => mret None
        | ModelDangerous =>
            if decide (CloudInitSrcDir opts ≠ "") then
              installCloudInitCfgDir (Filepath.Clean (CloudInitSrcDir opts))
                (WritableDefaultsDir (TargetRootDir opts)) (Some installOpts)
            else mret None
        | ModelGradeOther g =>
            mret (Some (ErrorfQ "internal error: unknown model assertion grade %s" g))
        end
    end.

Definition CloudInitStatus : M (CloudInitState * option error) :=
  let snapdRestrictingFile := Filepath.Join GlobalRootDir cloudInitSnapdRestrictFile in
  restricted ← osutil_FileExists snapdRestrictingFile;
  if restricted : bool then mret (CloudInitRestrictedBySnapd, None)
  else
    let disabledFile := Filepath.Join GlobalRootDir cloudInitDisabledFile in
    disabled ← osutil_FileExists disabledFile;
    if disabled : bool then mret (CloudInitDisabledPermanently, None)
    else
      ciBinary ← LookPath "cloud-init";
      match ciBinary with
      | inl _ =>
          (* logger.Noticef: the log is not part of the world *)
          mret (CloudInitNotFound, None)
      | inr ciBinary =>
          '(out, err) ← CombinedOutput [ciBinary; "status"];
          match err with
          | Some err => mret (CloudInitErrored, Some (OutputErr out err))
          | None =>
              let match_ := cloudInitStatusRe_FindSubmatch out in
              if negb (length match_ =? 2)%nat then
                mret (CloudInitErrored,
                      Some (ErrorfV "invalid cloud-init output: %v" (OutputErrNil out)))
              else
                let word := nth 1 match_ "" in
                if decide (word = "disabled") then mret (CloudInitUntriggered, None)
                else if decide (word = "error") then mret (CloudInitErrored, None)
                else if decide (word = "done") then mret (CloudInitDone, None)
                else mret (CloudInitEnabled, None)
          end
      end.

Definition RestrictCloudInit (state : CloudInitState)
    (opts : option CloudInitRestrictOptions)
  : M (CloudInitRestrictionResult * option error) :=
  let res := {| Action := ""; DataSource := "" |} in
  let opts :=
    default {| ForceDisable := false; DisableAfterLocalDatasourcesRun := false |} opts in
  let disable : M (CloudInitRestrictionResult * option error) :=
    let res := {| Action := "disable"; DataSource := DataSource res |} in
    err ← DisableCloudInit GlobalRootDir;
    mret (res, err) in
  if decide (state = CloudInitDone) then
    let res := {| Action := "restrict"; DataSource := DataSource res |} in
    let resultsFile := Filepath.Join GlobalRootDir "/run/cloud-init/status.json" in
    f ← os_Open resultsFile;
    match f with
    | inl err => mret (res, Some err)
    | inr f =>
        match Decode resultsFile f with
        | inl err => mret (res, Some err)
        | inr stat =>
            let datasourceRaw := v1_DataSource (V1 stat) in
            if decide (datasourceRaw = "") then
              mret (res, Some (Errorf "cloud-init error: missing datasource from status.json"))
            else
              let datasourceMatches := datasourceRe_FindStringSubmatch datasourceRaw in
              if negb (length datasourceMatches =? 2)%nat then
                mret (res, Some (ErrorfQ "cloud-init error: unexpected datasource format %q"
                                   datasourceRaw))
              else
                let res :=
                  {| Action := Action res; DataSource := nth 1 datasourceMatches "" |} in
                let cloudInitRestrictFile :=
                  Filepath.Join GlobalRootDir cloudInitSnapdRestrictFile in
                if DisableAfterLocalDatasourcesRun opts
                   && strutil_ListContains localDatasources (DataSource res) then
                  let res := {| Action := "disable"; DataSource := DataSource res |} in
                  err ← DisableCloudInit GlobalRootDir;
                  mret (res, err)
                else if decide (DataSource res = "NoCloud") then
                  err ← ioutil_WriteFile cloudInitRestrictFile nocloudRestrictYaml;
                  mret (res, err)
                else
                  let yaml := Sprintf_s genericCloudRestrictYamlPattern (DataSource res) in
                  err ← ioutil_WriteFile cloudInitRestrictFile yaml;
                  mret (res, err)
        end
    end
  else if decide (state = CloudInitRestrictedBySnapd) then
    mret (res, Some (Errorf "cannot restrict cloud-init: already restricted"))
  else if decide (state = CloudInitDisabledPermanently) then
    mret (res, Some (Errorf "cannot restrict cloud-init: already disabled"))
  else if decide (state = CloudInitErrored ∨ state = CloudInitEnabled) then
    if negb (ForceDisable opts) then
      mret (res, Some (Errorf "cannot restrict cloud-init in error or enabled state"))
    else disable
  else disable.

End Sysconfig.

(** ** Notions used by the specification *)

(** The results record run/cloud-init/status.json below [root] names the
    datasource [ds]: it is a regular file, decodes, and the pattern finds
    [ds] in its [v1.datasource] field. *)
Definition records_datasource (json_Decode : string → error + cloudInitStatus)
    (fs : FS) (root : path) (ds : string) : Prop :=
  ∃ data stat whole,
    fs !! resultsFile root = Some (File data)
    ∧ json_Decode data = inr stat
    ∧ datasourceRe_FindStringSubmatch (v1_DataSource (V1 stat)) = [whole; ds].

(** The results record cannot be used: it is missing, unreadable (a
    directory), does not decode, has an empty [v1.datasource], or one the
    pattern does not match. *)
Definition record_unusable (json_Decode : string → error + cloudInitStatus)
    (fs : FS) (root : path) : Prop :=
  fs !! resultsFile root = None
  ∨ fs !! resultsFile root = Some Directory
  ∨ ∃ data, fs !! resultsFile root = Some (File data)
      ∧ ((∃ err, json_Decode data = inl err)
         ∨ ∃ stat, json_Decode data = inr stat
             ∧ (v1_DataSource (V1 stat) = ""
                ∨ length (datasourceRe_FindStringSubmatch (v1_DataSource (V1 stat))) ≠ 2%nat)).

(** the options are the default ones: [nil], or all fields false *)
Definition default_options (opts : option CloudInitRestrictOptions) : Prop :=
  opts = None
  ∨ opts = Some {| ForceDisable := false; DisableAfterLocalDatasourcesRun := false |}.

(** the text made of these lines, each ended by a newline *)
Definition lines (l : list string) : string :=
  foldr (λ line rest, line +:+ String newline rest) "" l.

(** the datasource names a decoded document mentions: the entries of
    [datasource_list], the keys of [datasource] and the keys of [reporting] *)
Definition mentioned_names (cfg : supportedFilteredCloudConfig) : list string :=
  default [] (DatasourceList cfg)
  ++ elements (dom (Datasource cfg)) ++ elements (dom (Reporting cfg)).

(** ... and the same names up to the case of their letters *)
Definition names_upto_case (ToUpper : string → string)
    (cfg : supportedFilteredCloudConfig) : gset string :=
  list_to_set (ToUpper <$> mentioned_names cfg).

(** The paths that belong to the installation below [wd], whatever the
    grade: the directories down to etc/cloud/cloud.cfg.d, the gadget's
    document and the disable marker. A document of the seed area would be
    etc/cloud/cloud.cfg.d/90_<name> (spec 6). *)
Definition config_owned (wd p : path) : Prop :=
  (∃ k, p = take k (cloudCfgDir wd))
  ∨ p = cloudCfgDir wd ++ ["80_device_gadget.cfg"]
  ∨ p = disabledFile wd.

(** [opts] with another seed directory *)
Definition with_CloudInitSrcDir (opts : Options) (dir : string) : Options :=
  {| TargetRootDir := TargetRootDir opts;
     AllowCloudInit := AllowCloudInit opts;
     GadgetDir := GadgetDir opts;
     CloudInitSrcDir := dir |}.

(** [opts.ForceDisable], after [nil] options are replaced by the default *)
Definition force_of (opts : option CloudInitRestrictOptions) : bool :=
  ForceDisable (default {| ForceDisable := false;
                           DisableAfterLocalDatasourcesRun := false |} opts).

(** ** A sample host, for the worked examples

    The root directory is [/]; the agent is installed and reports what the
    world says; the decoders read the documents of the examples. *)

Module Sample.

Definition dquote : string := String "034"%char "".
Definition nl : string := String newline "".

(** any printable ASCII byte but the quote and the backslash *)
Definition is_plain (c : ascii) : bool :=
  byte_in 32 126 c && negb (Ascii.eqb c "034"%char) && negb (Ascii.eqb c "092"%char).

Definition status_json_head : string :=
  "{" +:+ dquote +:+ "v1" +:+ dquote +:+ ": {" +:+ dquote +:+ "datasource" +:+ dquote
  +:+ ": " +:+ dquote.

(** the results record [{ v1: { datasource: raw } }] as JSON text *)
Definition status_json (raw : string) : string :=
  status_json_head +:+ raw +:+ dquote +:+ "}}" +:+ nl.

(** a decoder for the records [status_json raw] with [raw] plain; any
    other text is refused *)
Definition json_Decode (b : string) : error + cloudInitStatus :=
  match strip_prefix status_json_head b with
  | Some rest =>
      let '(raw, tail) := span is_plain rest in
      if decide (tail = dquote +:+ "}}" +:+ nl)
      then inr {| V1 := {| v1_DataSource := raw |} |}
      else inl (LibraryError "invalid character")
  | None => inl (LibraryError "invalid character")
  end.

Definition exec_LookPath (fs : FS) (name : string) : error + string :=
  if decide (name = "cloud-init") then inr "/usr/bin/cloud-init"
  else inl (LibraryError "executable file not found in $PATH").

(** the agent prints [status: word] *)
Definition agent (word : string) (fs : FS) (argv : list string) : string * option error :=
  ("status: " +:+ word +:+ nl, None).

(** the agent prints [status: word] and exits with a status other than 0 *)
Definition agent_failing (word : string) (fs : FS) (argv : list string)
  : string * option error :=
  ("status: " +:+ word +:+ nl, Some (LibraryError "exit status 2")).

(** [filepath.Glob] as it is on the patterns the sample host asks of it,
    whose last component is [*.cfg] and whose directory has no
    metacharacter: the entries of the directory whose name ends in [.cfg],
    sorted; no error. *)
Definition filepath_Glob (fs : FS) (pattern : list string)
  : list (list string) * option error :=
  ((λ n, removelast pattern ++ [n])
     <$> filter (λ n, has_suffix ".cfg" n = true) (Fs.entries fs (removelast pattern)),
   None).

Definition dirs (l : list (list string)) : list (list string * node) :=
  (λ p, (p, Directory)) <$> l.

(** the agent ran with the datasource [raw]; /etc/cloud/cloud.cfg.d exists *)
Definition world_done (raw : string) : World :=
  mkWorld
    (list_to_map
       (dirs [["run"]; ["run"; "cloud-init"];
              ["etc"]; ["etc"; "cloud"]; ["etc"; "cloud"; "cloud.cfg.d"]]
        ++ [(["run"; "cloud-init"; "status.json"], File (status_json raw))]))
    [].

(** the same without /etc *)
Definition world_done_no_etc (raw : string) : World :=
  mkWorld
    (list_to_map
       (dirs [["run"]; ["run"; "cloud-init"]]
        ++ [(["run"; "cloud-init"; "status.json"], File (status_json raw))]))
    [].

(** the same with the restriction file already there *)
Definition world_done_restricted (raw : string) : World :=
  mkWorld
    (<[ ["etc"; "cloud"; "cloud.cfg.d"; "zzzz_snapd.cfg"] := File nocloudRestrictYaml ]>
       (files (world_done raw)))
    [].

(** /etc is a regular file *)
Definition world_etc_is_file (raw : string) : World :=
  mkWorld
    (list_to_map
       (dirs [["run"]; ["run"; "cloud-init"]]
        ++ [(["run"; "cloud-init"; "status.json"], File (status_json raw));
            (["etc"], File "")]))
    [].

(** nothing but the root directory *)
Definition world_empty : World := mkWorld ∅ [].

(** [sysconfig.WritableDefaultsDir]: _writable_defaults below the root *)
Definition WritableDefaultsDir (rootdir : string) : list string :=
  Filepath.Join (Filepath.Clean rootdir) "_writable_defaults".

(** documents of a gadget or of the seed area, and what they decode to *)
Definition doc_empty_list : string := lines ["datasource_list: []"].

Definition doc_no_list : string :=
  lines ["datasource:"; "  MAAS:"; "    consumer_key: key"].

Definition doc_maas : string :=
  lines ["datasource_list: [NoCloud, maas]";
         "datasource:"; "  MAAS:"; "    consumer_key: key";
         "reporting:"; "  Maas:"; "    type: webhook"].

Definition doc_maas_upper : string :=
  lines ["datasource_list: [MAAS, NOCLOUD]"].

Definition maas_settings : supportedFilteredDatasource :=
  {| ConsumerKey := "key"; MetadataURL := ""; TokenKey := ""; TokenSecret := "" |}.

Definition webhook : supportedFilteredReporting :=
  {| reporting_Type := "webhook"; reporting_Endpoint := "";
     reporting_ConsumerKey := ""; reporting_TokenKey := "";
     reporting_TokenSecret := "" |}.

Definition cfg_empty_list : supportedFilteredCloudConfig :=
  {| Datasource := ∅; Network := ∅; DatasourceList := Some []; Reporting := ∅ |}.

Definition cfg_no_list : supportedFilteredCloudConfig :=
  {| Datasource := {["MAAS" := maas_settings]}; Network := ∅;
     DatasourceList := None; Reporting := ∅ |}.

Definition cfg_maas : supportedFilteredCloudConfig :=
  {| Datasource := {["MAAS" := maas_settings]}; Network := ∅;
     DatasourceList := Some ["NoCloud"; "maas"];
     Reporting := {["Maas" := webhook]} |}.

Definition cfg_maas_upper : supportedFilteredCloudConfig :=
  {| Datasource := ∅; Network := ∅;
     DatasourceList := Some ["MAAS"; "NOCLOUD"]; Reporting := ∅ |}.

(** a decoder for these four documents; any other text is refused *)
Definition yaml_Unmarshal (b : string) : error + supportedFilteredCloudConfig :=
  if decide (b = doc_empty_list) then inr cfg_empty_list
  else if decide (b = doc_no_list) then inr cfg_no_list
  else if decide (b = doc_maas) then inr cfg_maas
  else if decide (b = doc_maas_upper) then inr cfg_maas_upper
  else inl (LibraryError "yaml: unsupported document").

(** a gadget with a cloud.conf, a seed area with one document, and a
    second gadget whose cloud.conf has no [datasource_list] *)
Definition world_install (gadget_conf : string) : World :=
  mkWorld
    (list_to_map
       (dirs [["gadget"]; ["other"]; ["seed"]; ["target"]]
        ++ [(["gadget"; "cloud.conf"], File gadget_conf);
            (["other"; "cloud.conf"], File doc_no_list);
            (["seed"; "user.cfg"], File doc_maas_upper);
            (["seed"; "notes.txt"], File "")]))
    [].

Definition install_options : Options :=
  {| TargetRootDir := "/target"; AllowCloudInit := true;
     GadgetDir := "/gadget"; CloudInitSrcDir := "/seed" |}.

End Sample.

(** ** Facts about the file system operations *)

Section FsFacts.

Implicit Types (fs : gmap (list string) node) (p q done rest : list string).

Lemma stat_nonempty fs p c l : Fs.stat fs (p ++ c :: l) = fs !! (p ++ c :: l).
Proof. by destruct p. Qed.

Lemma stat_snoc fs p c : Fs.stat fs (p ++ [c]) = fs !! (p ++ [c]).
Proof. apply stat_nonempty. Qed.

Lemma stat_ext fs fs' p : fs !! p = fs' !! p → Fs.stat fs p = Fs.stat fs' p.
Proof. by destruct p. Qed.

Lemma is_dir_ext fs fs' p : fs !! p = fs' !! p → Fs.is_dir fs p = Fs.is_dir fs' p.
Proof. intros H. unfold Fs.is_dir. by rewrite (stat_ext _ _ _ H). Qed.

Lemma take_shorter p q k : (length q < length p)%nat → p ≠ take k q.
Proof. intros Hlen ->. rewrite length_take in Hlen. lia. Qed.

(** [os.MkdirAll] only touches the prefixes of its argument. *)
Lemma mkdir_all_other done rest fs fs' p :
  Fs.mkdir_all done rest fs = inr fs' →
  (∀ k, (0 < k ≤ length rest)%nat → p ≠ done ++ take k rest) →
  fs' !! p = fs !! p.
Proof.
  revert done fs. induction rest as [|c rest IH]; intros done fs Hm Hp; simpl in Hm.
  - by inversion Hm.
  - assert (Hq : p ≠ done ++ [c]).
    { apply (Hp 1%nat). simpl. lia. }
    assert (Hrest : ∀ k, (0 < k ≤ length rest)%nat → p ≠ (done ++ [c]) ++ take k rest).
    { intros k Hk. rewrite <- app_assoc. apply (Hp (S k)). simpl. lia. }
    destruct (fs !! (done ++ [c])) as [[d|]|] eqn:E; try done.
    + by apply IH in Hm.
    + apply IH in Hm; [|done]. by rewrite Hm, lookup_insert_ne.
Qed.

(** ... and leaves a directory at each of them. *)
Lemma mkdir_all_dir done rest fs fs' k :
  Fs.mkdir_all done rest fs = inr fs' →
  (0 < k ≤ length rest)%nat →
  fs' !! (done ++ take k rest) = Some Directory.
Proof.
  revert done fs k. induction rest as [|c rest IH]; intros done fs k Hm Hk; simpl in *.
  - lia.
  - destruct k as [|k]; [lia|]. simpl.
    replace (done ++ c :: take k rest) with ((done ++ [c]) ++ take k rest)
      by (by rewrite <- app_assoc).
    destruct (decide (k = 0%nat)) as [->|Hk0].
    + rewrite take_0, app_nil_r.
      assert (Hkeep : ∀ fs0, Fs.mkdir_all (done ++ [c]) rest fs0 = inr fs' →
                fs' !! (done ++ [c]) = fs0 !! (done ++ [c])).
      { intros fs0 H0. apply (mkdir_all_other _ _ _ _ _ H0).
        intros j Hj Heq. apply (f_equal length) in Heq.
        rewrite !length_app, length_take in Heq. simpl in Heq. lia. }
      destruct (fs !! (done ++ [c])) as [[d|]|] eqn:E; try done.
      * by rewrite (Hkeep _ Hm).
      * by rewrite (Hkeep _ Hm), lookup_insert_eq.
    + destruct (fs !! (done ++ [c])) as [[d|]|] eqn:E; try done;
        (eapply IH; [exact Hm | lia]).
Qed.

(** It succeeds exactly when no regular file is in the way. *)
Lemma mkdir_all_from_inr done rest fs :
  (∀ k, (0 < k ≤ length rest)%nat → Fs.is_file fs (done ++ take k rest) = false) →
  ∃ fs', Fs.mkdir_all done rest fs = inr fs'.
Proof.
  revert done fs. induction rest as [|c rest IH]; intros done fs Hk; simpl.
  - eauto.
  - assert (Hrest : ∀ fs0 : gmap (list string) node,
              (∀ q, q ≠ done ++ [c] → fs0 !! q = fs !! q) →
              ∀ k, (0 < k ≤ length rest)%nat →
                   Fs.is_file fs0 ((done ++ [c]) ++ take k rest) = false).
    { intros fs0 H0 k Hlt. specialize (Hk (S k)). simpl in Hk.
      rewrite <- app_assoc. simpl. unfold Fs.is_file in *.
      rewrite stat_nonempty in *. rewrite H0; [apply Hk; lia|].
      intros Heq. apply (f_equal length) in Heq.
      rewrite !length_app in Heq. simpl in Heq. rewrite length_take in Heq. lia. }
    pose proof (Hk 1%nat) as H1. simpl in H1. rewrite take_0 in H1.
    unfold Fs.is_file in H1. rewrite stat_snoc in H1.
    destruct (fs !! (done ++ [c])) as [[d|]|] eqn:E.
    + discriminate H1. lia.
    + apply IH. by apply Hrest.
    + apply IH. apply Hrest. intros q Hq. by rewrite lookup_insert_ne.
Qed.

Lemma mkdir_all_from_inl done rest fs k :
  (0 < k ≤ length rest)%nat →
  Fs.is_file fs (done ++ take k rest) = true →
  ∃ e, Fs.mkdir_all done rest fs = inl e.
Proof.
  revert done fs k. induction rest as [|c rest IH]; intros done fs k Hk Hf; simpl in *.
  - lia.
  - destruct k as [|k]; [lia|]. simpl in Hf.
    destruct (fs !! (done ++ [c])) as [[d|]|] eqn:E; [eauto| |].
    + destruct (decide (k = 0%nat)) as [->|Hk0].
      * rewrite take_0 in Hf. unfold Fs.is_file in Hf.
        rewrite stat_snoc, E in Hf. done.
      * apply (IH _ _ k); [lia|]. by rewrite <- app_assoc.
    + destruct (decide (k = 0%nat)) as [->|Hk0].
      * rewrite take_0 in Hf. unfold Fs.is_file in Hf.
        rewrite stat_snoc, E in Hf. done.
      * apply (IH _ _ k); [lia|]. rewrite <- app_assoc. simpl.
        unfold Fs.is_file in *. rewrite stat_nonempty in *.
        rewrite lookup_insert_ne; [done|].
        intros Heq. apply (f_equal length) in Heq.
        rewrite !length_app in Heq. simpl in Heq. rewrite length_take in Heq. lia.
Qed.

Lemma forallb_false {A} (f : A → bool) (l : list A) :
  forallb f l = false → ∃ x, In x l ∧ f x = false.
Proof.
  induction l as [|a l IH]; simpl; [done|].
  rewrite andb_false_iff. intros [H|H]; [by eauto|].
  destruct (IH H) as (x & ? & ?). eauto.
Qed.

Lemma can_mkdir_all_true fs p :
  Fs.can_mkdir_all fs p = true → ∃ fs', Fs.mkdir_all [] p fs = inr fs'.
Proof.
  intros H. apply mkdir_all_from_inr. intros k Hk. simpl.
  unfold Fs.can_mkdir_all in H. rewrite forallb_forall in H.
  specialize (H k). rewrite negb_true_iff in H. apply H.
  apply in_seq. lia.
Qed.

Lemma can_mkdir_all_false fs p :
  Fs.can_mkdir_all fs p = false → ∃ e, Fs.mkdir_all [] p fs = inl e.
Proof.
  intros H. unfold Fs.can_mkdir_all in H.
  destruct (forallb_false _ _ H) as (k & Hk & Hf).
  apply in_seq in Hk. rewrite negb_false_iff in Hf.
  apply (mkdir_all_from_inl [] p fs k); [lia|done].
Qed.

(** *** The operations keep a file tree a file tree *)

Lemma removelast_ne p : p ≠ [] → removelast p ≠ p.
Proof.
  intros Hp Heq. rewrite (app_removelast_last "" Hp) in Heq at 2.
  apply (f_equal length) in Heq. rewrite length_app in Heq. simpl in Heq. lia.
Qed.

Lemma is_dir_insert_dir fs p q :
  Fs.is_dir fs p = true → Fs.is_dir (<[q := Directory]> fs) p = true.
Proof.
  unfold Fs.is_dir. intros H. apply bool_decide_eq_true in H. apply bool_decide_eq_true.
  destruct p as [|c p]; [done|]. simpl in *.
  destruct (decide (q = c :: p)) as [->|Hne].
  - by rewrite lookup_insert_eq.
  - by rewrite lookup_insert_ne.
Qed.

Lemma wf_insert_dir fs q :
  Fs.wf fs → q ≠ [] → Fs.is_dir fs (removelast q) = true →
  Fs.wf (<[q := Directory]> fs).
Proof.
  intros Hwf Hq Hd. unfold Fs.wf in *. apply map_Forall_lookup. intros p x Hp.
  destruct (decide (q = p)) as [->|Hne].
  - split; [done|]. by apply is_dir_insert_dir.
  - rewrite lookup_insert_ne in Hp by done.
    destruct (map_Forall_lookup_1 _ _ _ _ Hwf Hp) as [? ?].
    split; [done|]. by apply is_dir_insert_dir.
Qed.

Lemma mkdir_all_wf done rest fs fs' :
  Fs.wf fs → Fs.is_dir fs done = true →
  Fs.mkdir_all done rest fs = inr fs' → Fs.wf fs'.
Proof.
  revert done fs. induction rest as [|c rest IH]; intros done fs Hwf Hd Hm; simpl in Hm.
  - by inversion Hm; subst.
  - assert (Hq : done ++ [c] ≠ []) by (by destruct done).
    destruct (fs !! (done ++ [c])) as [[d|]|] eqn:E; [done| |].
    + apply (IH (done ++ [c]) fs Hwf); [|done]. unfold Fs.is_dir.
      rewrite stat_snoc, E. by apply bool_decide_eq_true.
    + apply (IH (done ++ [c]) (<[done ++ [c] := Directory]> fs)); [| |done].
      * apply wf_insert_dir; [done|done|]. by rewrite removelast_last.
      * unfold Fs.is_dir. rewrite stat_snoc, lookup_insert_eq.
        by apply bool_decide_eq_true.
Qed.

Lemma write_file_wf fs p data fs' :
  Fs.wf fs → Fs.write_file fs p data = inr fs' → Fs.wf fs'.
Proof.
  intros Hwf Hw. unfold Fs.write_file in Hw.
  destruct p as [|c0 p0] eqn:Ep; [done|]. rewrite <- Ep in *.
  assert (Hp : p ≠ []) by (by rewrite Ep).
  destruct (Fs.stat fs (removelast p)) as [[|]|] eqn:Es; [done| |done].
  assert (Hnd : fs !! p ≠ Some Directory).
  { intros Hd. by rewrite Hd in Hw. }
  assert (fs' = <[p := File data]> fs) as ->.
  { destruct (fs !! p) as [[|]|]; by inversion Hw. }
  assert (Hkeep : ∀ q, Fs.is_dir fs q = true →
                       Fs.is_dir (<[p := File data]> fs) q = true).
  { intros q Hq. unfold Fs.is_dir in *. apply bool_decide_eq_true in Hq.
    apply bool_decide_eq_true. destruct q as [|c q]; [done|]. simpl in *.
    destruct (decide (p = c :: q)) as [Heq|Hne]; [by rewrite Heq in Hnd|].
    by rewrite lookup_insert_ne. }
  unfold Fs.wf in *. apply map_Forall_lookup. intros q x Hq.
  destruct (decide (p = q)) as [<-|Hne].
  - split; [done|]. apply Hkeep. unfold Fs.is_dir. rewrite Es.
    by apply bool_decide_eq_true.
  - rewrite lookup_insert_ne in Hq by done.
    destruct (map_Forall_lookup_1 _ _ _ _ Hwf Hq) as [? ?].
    split; [done|]. by apply Hkeep.
Qed.

End FsFacts.

(** ** Paths of the package *)

Section Paths.

Implicit Types (root : list string).

Lemma ubuntuDataCloudDir_eq root :
  ubuntuDataCloudDir root = root ++ ["etc"; "cloud"].
Proof. cbv -[app]. by rewrite <- !app_assoc. Qed.

Lemma Join_disabled_marker root :
  Filepath.Join (root ++ ["etc"; "cloud"]) "cloud-init.disabled" = disabledFile root.
Proof. cbv -[app]. by rewrite <- !app_assoc. Qed.

Lemma Join_cloudInitSnapdRestrictFile root :
  Filepath.Join root cloudInitSnapdRestrictFile = restrictFile root.
Proof. cbv -[app]. by rewrite <- !app_assoc. Qed.

Lemma Join_cloudInitDisabledFile root :
  Filepath.Join root cloudInitDisabledFile = disabledFile root.
Proof. cbv -[app]. by rewrite <- !app_assoc. Qed.

Lemma Join_resultsFile root :
  Filepath.Join root "/run/cloud-init/status.json" = resultsFile root.
Proof. cbv -[app]. by rewrite <- !app_assoc. Qed.

Lemma Join_cloud_cfg_d root :
  Filepath.Join (root ++ ["etc"; "cloud"]) "cloud.cfg.d/" = cloudCfgDir root.
Proof. cbv -[app]. by rewrite <- !app_assoc. Qed.

Lemma Join_gadget_cfg root :
  Filepath.Join (cloudCfgDir root) "80_device_gadget.cfg"
  = cloudCfgDir root ++ ["80_device_gadget.cfg"].
Proof. cbv -[app]. by rewrite <- !app_assoc. Qed.

Lemma removelast_snoc (p : list string) (c : string) : removelast (p ++ [c]) = p.
Proof. by rewrite removelast_app, app_nil_r. Qed.

Lemma removelast_restrictFile root : removelast (restrictFile root) = cloudCfgDir root.
Proof.
  unfold restrictFile, cloudCfgDir.
  change (removelast (root ++ (["etc"; "cloud"; "cloud.cfg.d"] ++ ["zzzz_snapd.cfg"]))
          = root ++ ["etc"; "cloud"; "cloud.cfg.d"]).
  by rewrite app_assoc, removelast_snoc.
Qed.

Lemma removelast_disabledFile root : removelast (disabledFile root) = root ++ ["etc"; "cloud"].
Proof.
  unfold disabledFile.
  change (removelast (root ++ (["etc"; "cloud"] ++ ["cloud-init.disabled"]))
          = root ++ ["etc"; "cloud"]).
  by rewrite app_assoc, removelast_snoc.
Qed.

Lemma disabledFile_snoc root :
  disabledFile root = (root ++ ["etc"; "cloud"]) ++ ["cloud-init.disabled"].
Proof. unfold disabledFile. by rewrite <- app_assoc. Qed.

Lemma restrictFile_snoc root :
  restrictFile root = cloudCfgDir root ++ ["zzzz_snapd.cfg"].
Proof. unfold restrictFile, cloudCfgDir. by rewrite <- app_assoc. Qed.

Lemma restrictFile_ne_disabledFile root : restrictFile root ≠ disabledFile root.
Proof. unfold restrictFile, disabledFile. intros H. by apply app_inv_head in H. Qed.

End Paths.

(** ** The disable marker *)

Ltac run_monad :=
  unfold mbind, M_bind, mret, M_ret, os_MkdirAll, ioutil_WriteFile, ioutil_ReadFile,
    os_Open, Fs.open, osutil_FileExists, osutil_CopyFile, update_files in *.

Section DisableFacts.

Implicit Types (root p : list string) (w : World).

Lemma write_file_ok (fs : gmap (list string) node) p c data :
  Fs.is_dir fs p = true →
  Fs.is_dir fs (p ++ [c]) = false →
  Fs.write_file fs (p ++ [c]) data = inr (<[p ++ [c] := File data]> fs).
Proof.
  intros Hd Hf. unfold Fs.write_file, Fs.is_dir in *.
  rewrite removelast_snoc. apply bool_decide_eq_true in Hd. rewrite Hd.
  apply bool_decide_eq_false in Hf. rewrite stat_snoc in Hf.
  destruct (p ++ [c]) eqn:E; [by destruct p|]. rewrite <- E in *.
  by destruct (fs !! (p ++ [c])) as [[|]|].
Qed.

Lemma write_file_err (fs : gmap (list string) node) p c data :
  Fs.is_dir fs p && negb (Fs.is_dir fs (p ++ [c])) = false →
  ∃ e, Fs.write_file fs (p ++ [c]) data = inl e.
Proof.
  intros H. unfold Fs.write_file, Fs.is_dir in *. rewrite removelast_snoc.
  destruct (p ++ [c]) eqn:E; [by destruct p|]. rewrite <- E in *.
  rewrite stat_snoc in H.
  destruct (Fs.stat fs p) as [[|]|]; [by eauto| |by eauto].
  destruct (fs !! (p ++ [c])) as [[|]|]; [done|by eauto|done].
Qed.

Lemma DisableCloudInit_can root w :
  can_disable (files w) root = true →
  ∃ fs', DisableCloudInit root w = (None, mkWorld fs' (execs w))
         ∧ fs' !! disabledFile root = Some (File "")
         ∧ ∀ p, p ≠ disabledFile root →
                (∀ k, p ≠ take k (root ++ ["etc"; "cloud"])) →
                fs' !! p = files w !! p.
Proof.
  unfold can_disable. rewrite andb_true_iff, negb_true_iff. intros [Hm Hd].
  destruct (can_mkdir_all_true _ _ Hm) as [fs1 Hfs1].
  assert (Hdir : Fs.is_dir fs1 (root ++ ["etc"; "cloud"]) = true).
  { unfold Fs.is_dir. apply bool_decide_eq_true.
    rewrite (stat_nonempty fs1 root "etc" ["cloud"]).
    pose proof (mkdir_all_dir [] _ _ _ (length (root ++ ["etc"; "cloud"])) Hfs1) as H.
    simpl in H. rewrite firstn_all in H. apply H.
    rewrite length_app. simpl. lia. }
  assert (Hsame : fs1 !! disabledFile root = files w !! disabledFile root).
  { apply (mkdir_all_other _ _ _ _ _ Hfs1). intros k _. simpl.
    apply take_shorter. unfold disabledFile. rewrite !length_app. simpl. lia. }
  assert (Hd1 : Fs.is_dir fs1 (disabledFile root) = false).
  { by rewrite (is_dir_ext _ _ _ Hsame). }
  exists (<[disabledFile root := File ""]> fs1).
  split; [|split].
  - unfold DisableCloudInit. rewrite ubuntuDataCloudDir_eq, Join_disabled_marker.
    run_monad. rewrite Hfs1. simpl.
    rewrite disabledFile_snoc in Hd1 |- *.
    by rewrite (write_file_ok _ _ _ _ Hdir Hd1).
  - by rewrite lookup_insert_eq.
  - intros p Hp Hk. rewrite lookup_insert_ne by done.
    apply (mkdir_all_other _ _ _ _ _ Hfs1). intros k _. apply Hk.
Qed.

(** When the marker cannot be created the error is returned and no marker
    is written; only directories on the way to etc/cloud may have been
    made. *)
Lemma DisableCloudInit_cannot root w :
  can_disable (files w) root = false →
  ∃ e w', DisableCloudInit root w = (Some e, w')
          ∧ execs w' = execs w
          ∧ ∀ p, (∀ k, p ≠ take k (root ++ ["etc"; "cloud"])) →
                 files w' !! p = files w !! p.
Proof.
  intros Hc. unfold DisableCloudInit. rewrite ubuntuDataCloudDir_eq, Join_disabled_marker.
  run_monad.
  destruct (Fs.can_mkdir_all (files w) (root ++ ["etc"; "cloud"])) eqn:Hm.
  - destruct (can_mkdir_all_true _ _ Hm) as [fs1 Hfs1]. rewrite Hfs1. simpl.
    unfold can_disable in Hc. rewrite Hm in Hc. simpl in Hc.
    apply negb_false_iff in Hc.
    assert (Hsame : fs1 !! disabledFile root = files w !! disabledFile root).
    { apply (mkdir_all_other _ _ _ _ _ Hfs1). intros k _. simpl.
      apply take_shorter. unfold disabledFile. rewrite !length_app. simpl. lia. }
    assert (Hd1 : Fs.is_dir fs1 (disabledFile root) = true).
    { by rewrite (is_dir_ext _ _ _ Hsame). }
    rewrite disabledFile_snoc in Hd1 |- *.
    destruct (write_file_err fs1 (root ++ ["etc"; "cloud"]) "cloud-init.disabled" "")
      as [e He].
    { rewrite Hd1. apply andb_false_r. }
    rewrite He. simpl. eexists _, _. split; [done|]. split; [done|]. simpl.
    intros p Hp. apply (mkdir_all_other _ _ _ _ _ Hfs1). intros k _. apply Hp.
  - destruct (can_mkdir_all_false _ _ Hm) as [e He]. rewrite He. simpl.
    eexists _, _. split; [done|]. by split.
Qed.

Lemma update_files_wf (f : gmap (list string) node → error + gmap (list string) node)
    w err w' :
  (∀ fs fs', Fs.wf fs → f fs = inr fs' → Fs.wf fs') →
  Fs.wf (files w) → update_files f w = (err, w') → Fs.wf (files w').
Proof.
  intros Hf Hwf. unfold update_files.
  destruct (f (files w)) as [e|fs'] eqn:E; intros [= <- <-]; [done|].
  by apply (Hf _ _ Hwf).
Qed.

Lemma MkdirAll_wf p w err w' :
  Fs.wf (files w) → os_MkdirAll p w = (err, w') → Fs.wf (files w').
Proof.
  apply update_files_wf. intros fs fs' Hwf. by apply mkdir_all_wf.
Qed.

Lemma WriteFile_wf p data w err w' :
  Fs.wf (files w) → ioutil_WriteFile p data w = (err, w') → Fs.wf (files w').
Proof.
  apply update_files_wf. intros fs fs' Hwf. by apply write_file_wf.
Qed.

(** [DisableCloudInit] keeps the file tree a file tree. *)
Lemma DisableCloudInit_wf root w err w' :
  Fs.wf (files w) → DisableCloudInit root w = (err, w') → Fs.wf (files w').
Proof.
  intros Hwf. unfold DisableCloudInit, mbind, M_bind, mret, M_ret.
  destruct (os_MkdirAll _ w) as [e1 w1] eqn:E1.
  pose proof (MkdirAll_wf _ _ _ _ Hwf E1) as Hwf1.
  destruct e1; [by intros [= <- <-]|].
  destruct (ioutil_WriteFile _ _ w1) as [e2 w2] eqn:E2.
  pose proof (WriteFile_wf _ _ _ _ _ Hwf1 E2) as Hwf2.
  destruct e2; by intros [= <- <-].
Qed.

End DisableFacts.

(** ** The status oracle *)

Section StatusFacts.

Variable GlobalRootDir : list string.
Variable exec_LookPath : gmap (list string) node → string → error + string.
Variable exec_CombinedOutput :
  gmap (list string) node → list string → string * option error.

Local Abbreviation Status := (CloudInitStatus GlobalRootDir exec_LookPath exec_CombinedOutput).

Lemma FileExists_restrictFile (w : World) :
  osutil_FileExists (restrictFile GlobalRootDir) w
  = (bool_decide (is_Some (files w !! restrictFile GlobalRootDir)), w).
Proof.
  unfold osutil_FileExists, restrictFile. by rewrite stat_nonempty.
Qed.

Lemma FileExists_disabledFile (w : World) :
  osutil_FileExists (disabledFile GlobalRootDir) w
  = (bool_decide (is_Some (files w !! disabledFile GlobalRootDir)), w).
Proof.
  unfold osutil_FileExists, disabledFile. by rewrite stat_nonempty.
Qed.

(** The restriction file decides alone, and first. *)
Lemma CloudInitStatus_restricted (w : World) :
  is_Some (files w !! restrictFile GlobalRootDir) →
  Status w = ((CloudInitRestrictedBySnapd, None), w).
Proof.
  intros H. unfold CloudInitStatus.
  rewrite Join_cloudInitSnapdRestrictFile. unfold mbind, M_bind.
  rewrite FileExists_restrictFile. by rewrite bool_decide_eq_true_2.
Qed.

(** Then the disable marker. *)
Lemma CloudInitStatus_disabled (w : World) :
  files w !! restrictFile GlobalRootDir = None →
  is_Some (files w !! disabledFile GlobalRootDir) →
  Status w = ((CloudInitDisabledPermanently, None), w).
Proof.
  intros Hr Hd. unfold CloudInitStatus.
  rewrite Join_cloudInitSnapdRestrictFile, Join_cloudInitDisabledFile.
  unfold mbind, M_bind.
  rewrite FileExists_restrictFile.
  rewrite bool_decide_eq_false_2 by (rewrite Hr; by intros [? ?]).
  rewrite FileExists_disabledFile. by rewrite bool_decide_eq_true_2.
Qed.

(** Without markers the agent is asked. *)
Lemma CloudInitStatus_agent (w : World) (ciBinary out : string) :
  files w !! restrictFile GlobalRootDir = None →
  files w !! disabledFile GlobalRootDir = None →
  exec_LookPath (files w) "cloud-init" = inr ciBinary →
  exec_CombinedOutput (files w) [ciBinary; "status"] = (out, None) →
  Status w =
    (let match_ := cloudInitStatusRe_FindSubmatch out in
     if negb (length match_ =? 2)%nat then
       (CloudInitErrored,
        Some (ErrorfV "invalid cloud-init output: %v" (OutputErrNil out)))
     else
       let word := nth 1 match_ "" in
       if decide (word = "disabled") then (CloudInitUntriggered, None)
       else if decide (word = "error") then (CloudInitErrored, None)
       else if decide (word = "done") then (CloudInitDone, None)
       else (CloudInitEnabled, None),
     mkWorld (files w) ([ciBinary; "status"] :: execs w)).
Proof.
  intros Hr Hd Hl Hc. unfold CloudInitStatus.
  rewrite Join_cloudInitSnapdRestrictFile, Join_cloudInitDisabledFile.
  unfold mbind, M_bind.
  rewrite FileExists_restrictFile.
  rewrite bool_decide_eq_false_2 by (rewrite Hr; by intros [? ?]).
  rewrite FileExists_disabledFile.
  rewrite bool_decide_eq_false_2 by (rewrite Hd; by intros [? ?]).
  unfold LookPath, CombinedOutput. rewrite Hl, Hc. simpl.
  destruct (negb _); [done|]. by repeat case_decide.
Qed.

End StatusFacts.

(** ** The pattern for datasource names *)

Section RegexpFacts.

Lemma datasourceRe_here_length (s : string) (m : list string) :
  datasourceRe_here s = Some m → length m = 2%nat.
Proof.
  unfold datasourceRe_here. destruct (strip_prefix _ s); [|done].
  destruct (span is_alnum s0). case_decide; [done|]. by intros [= <-].
Qed.

(** [FindStringSubmatch] returns [nil] or the match and its group. *)
Lemma datasourceRe_length (s : string) :
  length (datasourceRe_FindStringSubmatch s) = 0%nat
  ∨ length (datasourceRe_FindStringSubmatch s) = 2%nat.
Proof.
  induction s as [|c s IH].
  - by left.
  - cbn [datasourceRe_FindStringSubmatch].
    destruct (datasourceRe_here (String c s)) eqn:E; [|done].
    right. by eapply datasourceRe_here_length.
Qed.

Lemma datasourceRe_empty : datasourceRe_FindStringSubmatch "" = [].
Proof. reflexivity. Qed.

(** the group is never empty and holds only letters and digits *)
Lemma span_forall (f : ascii → bool) (s a b : string) :
  span f s = (a, b) → Forall (λ c, f c = true) (list_ascii_of_string a).
Proof.
  revert a b. induction s as [|c s IH]; intros a b; simpl.
  - intros [= <- <-]. constructor.
  - destruct (f c) eqn:E.
    + destruct (span f s) as [a' b'] eqn:E'. intros [= <- <-]. simpl.
      constructor; [done|]. by eapply IH.
    + intros [= <- <-]. constructor.
Qed.

Lemma datasourceRe_group (s whole ds : string) :
  datasourceRe_FindStringSubmatch s = [whole; ds] →
  ds ≠ "" ∧ Forall (λ c, is_alnum c = true) (list_ascii_of_string ds).
Proof.
  induction s as [|c s IH].
  - done.
  - cbn [datasourceRe_FindStringSubmatch].
    destruct (datasourceRe_here (String c s)) eqn:E; [|done].
    intros ->. unfold datasourceRe_here in E.
    destruct (strip_prefix _ _) as [rest|]; [|done].
    destruct (span is_alnum rest) as [name tail] eqn:Es.
    case_decide; [done|]. injection E as <- <-. split; [done|].
    by eapply span_forall.
Qed.

(** a suffix that does not start with a letter or digit is stripped *)
Example datasourceRe_Ec2 (seed : string) :
  datasourceRe_FindStringSubmatch ("DataSourceEc2 [seed=" +:+ seed +:+ "]")
  = ["DataSourceEc2" +:+ dot_star (" [seed=" +:+ seed +:+ "]"); "Ec2"].
Proof. reflexivity. Qed.

Example datasourceRe_NoCloud :
  datasourceRe_FindStringSubmatch "DataSourceNoCloud [seed=/dev/sr0][dsmode=net]"
  = ["DataSourceNoCloud [seed=/dev/sr0][dsmode=net]"; "NoCloud"].
Proof. reflexivity. Qed.

Example datasourceRe_no_name :
  datasourceRe_FindStringSubmatch "DataSource [seed=/dev/sr0]" = [].
Proof. reflexivity. Qed.

End RegexpFacts.

(** ** The restriction engine *)

Section RestrictFacts.

Variable GlobalRootDir : list string.
Variable json_Decode : string → error + cloudInitStatus.

Local Abbreviation Restrict := (RestrictCloudInit GlobalRootDir json_Decode).
Local Abbreviation root := GlobalRootDir.

Implicit Types (w : World) (opts : option CloudInitRestrictOptions).

Lemma write_file_can (fs : gmap (list string) node) (p : list string) data :
  p ≠ [] → Fs.can_write fs p = true →
  Fs.write_file fs p data = inr (<[p := File data]> fs).
Proof.
  intros Hp Hc. unfold Fs.can_write in Hc.
  rewrite andb_true_iff, negb_true_iff in Hc. destruct Hc as [Hd Hf].
  pose proof (app_removelast_last "" Hp) as E.
  set (q := removelast p) in *. set (c := List.last p "") in *.
  clearbody q c. subst p. by apply write_file_ok.
Qed.

Lemma write_file_cannot (fs : gmap (list string) node) (p : list string) data :
  Fs.can_write fs p = false → ∃ e, Fs.write_file fs p data = inl e.
Proof.
  intros Hc. destruct (decide (p = [])) as [->|Hp]; [by eexists|].
  unfold Fs.can_write in Hc.
  pose proof (app_removelast_last "" Hp) as E.
  set (q := removelast p) in *. set (c := List.last p "") in *.
  clearbody q c. subst p. by apply write_file_err.
Qed.

Lemma restrictFile_nonempty : restrictFile root ≠ [].
Proof. unfold restrictFile. by destruct root. Qed.

(** In state [CloudInitDone], with a results record that names [ds]: the
    decision between disabling and pinning. *)
Lemma Restrict_done opts w ds :
  records_datasource json_Decode (files w) root ds →
  Restrict CloudInitDone opts w =
    let o := default {| ForceDisable := false;
                        DisableAfterLocalDatasourcesRun := false |} opts in
    if DisableAfterLocalDatasourcesRun o && strutil_ListContains localDatasources ds
    then
      let '(err, w') := DisableCloudInit root w in
      (({| Action := "disable"; DataSource := ds |}, err), w')
    else
      let '(err, w') :=
        ioutil_WriteFile (restrictFile root)
          (if decide (ds = "NoCloud") then nocloudRestrictYaml
           else Sprintf_s genericCloudRestrictYamlPattern ds) w in
      (({| Action := "restrict"; DataSource := ds |}, err), w').
Proof.
  intros (data & stat & whole & Hf & Hd & Hm).
  unfold RestrictCloudInit. rewrite decide_True by done.
  rewrite Join_resultsFile, Join_cloudInitSnapdRestrictFile.
  unfold mbind, M_bind, os_Open, Fs.open, mret, M_ret.
  unfold resultsFile in *. rewrite stat_nonempty, Hf. simpl. rewrite Hd.
  rewrite decide_False by (intros He; by rewrite He in Hm).
  rewrite Hm. simpl.
  destruct (DisableAfterLocalDatasourcesRun _ && _); [done|].
  by case_decide.
Qed.

(** In state [CloudInitDone], with a results record that cannot be used:
    an error, and nothing changes. *)
Lemma Restrict_done_unusable opts w :
  record_unusable json_Decode (files w) root →
  ∃ err, Restrict CloudInitDone opts w
         = (({| Action := "restrict"; DataSource := "" |}, Some err), w).
Proof.
  intros Hu. unfold RestrictCloudInit. rewrite decide_True by done.
  rewrite Join_resultsFile. unfold mbind, M_bind, os_Open, Fs.open, mret, M_ret.
  unfold record_unusable, resultsFile in *. rewrite stat_nonempty.
  destruct Hu as [Hu|[Hu|(data & Hf & Hu)]].
  - rewrite Hu. by eexists.
  - rewrite Hu. by eexists.
  - rewrite Hf. simpl. destruct Hu as [[err He]|(stat & Hs & Hu)].
    + rewrite He. by eexists.
    + rewrite Hs. destruct Hu as [Hu|Hu].
      * rewrite decide_True by done. by eexists.
      * case_decide; [by eexists|].
        destruct (datasourceRe_length (v1_DataSource (V1 stat))) as [Hl|Hl]; [|done].
        rewrite Hl. simpl. by eexists.
Qed.

Lemma WriteFile_can (p : list string) data w :
  p ≠ [] → Fs.can_write (files w) p = true →
  ioutil_WriteFile p data w = (None, mkWorld (<[p := File data]> (files w)) (execs w)).
Proof.
  intros Hp Hc. unfold ioutil_WriteFile, update_files.
  by rewrite (write_file_can _ _ _ Hp Hc).
Qed.

Lemma WriteFile_cannot (p : list string) data w :
  Fs.can_write (files w) p = false →
  ∃ e, ioutil_WriteFile p data w = (Some e, w).
Proof.
  intros Hc. unfold ioutil_WriteFile, update_files.
  destruct (write_file_cannot _ _ data Hc) as [e ->]. by eexists.
Qed.

End RestrictFacts.

(** ** What the specification states about the restriction engine *)

Section RestrictClaims.

Variable GlobalRootDir : list string.
Variable json_Decode : string → error + cloudInitStatus.
Variable exec_LookPath : gmap (list string) node → string → error + string.
Variable exec_CombinedOutput :
  gmap (list string) node → list string → string * option error.

Local Abbreviation Restrict := (RestrictCloudInit GlobalRootDir json_Decode).
Local Abbreviation Status :=
  (CloudInitStatus GlobalRootDir exec_LookPath exec_CombinedOutput).
Local Abbreviation root := GlobalRootDir.

Implicit Types (w : World) (opts : option CloudInitRestrictOptions).

(** The states that are neither done nor already handled end in
    [DisableCloudInit]. *)
Lemma Restrict_disable (state : CloudInitState) opts w :
  state ≠ CloudInitDone → state ≠ CloudInitRestrictedBySnapd →
  state ≠ CloudInitDisabledPermanently →
  (state = CloudInitErrored ∨ state = CloudInitEnabled → force_of opts = true) →
  Restrict state opts w =
    let '(err, w') := DisableCloudInit root w in
    (({| Action := "disable"; DataSource := "" |}, err), w').
Proof.
  intros H1 H2 H3 Hf. unfold RestrictCloudInit, force_of in *.
  rewrite !decide_False by done. case_decide; [|done].
  by rewrite Hf.
Qed.

(** what [DisableCloudInit] leaves behind, by whether the marker can be
    created *)
Lemma Disable_outcome w :
  ∃ err w', DisableCloudInit root w = (err, w')
    ∧ execs w' = execs w
    ∧ files w' !! restrictFile root = files w !! restrictFile root
    ∧ if can_disable (files w) root
      then err = None ∧ files w' !! disabledFile root = Some (File "")
      else err ≠ None ∧ files w' !! disabledFile root = files w !! disabledFile root.
Proof.
  destruct (can_disable (files w) root) eqn:Hc.
  - destruct (DisableCloudInit_can _ _ Hc) as (fs' & -> & Hm & Hframe).
    eexists _, _. split; [done|]. split; [done|]. split; [|done]. simpl.
    apply Hframe; [apply restrictFile_ne_disabledFile|].
    intros k. apply take_shorter. unfold restrictFile.
    rewrite !length_app. simpl. lia.
  - destruct (DisableCloudInit_cannot _ _ Hc) as (e & w' & -> & He & Hframe).
    eexists _, _. split; [done|]. split; [done|].
    split; [|split; [done|]]; apply Hframe; intros k; apply take_shorter;
      unfold restrictFile, disabledFile; rewrite !length_app; simpl; lia.
Qed.

(** C7 (as amended). In state [CloudInitErrored] or [CloudInitEnabled]
    the call returns an error, and changes nothing, when [ForceDisable]
    is false; when it is true the call is the one of the untriggered
    state. In state [CloudInitUntriggered] or [CloudInitNotFound] the call
    returns the action "disable"; when the marker can be created (no
    regular file at a directory on the way to etc/cloud, no directory at
    the marker) it returns no error and the empty marker file
    etc/cloud/cloud-init.disabled is written; otherwise it returns the
    error and no marker is written. *)
Theorem C7_states_outside_done (state : CloudInitState) opts w :
  ((state = CloudInitErrored ∨ state = CloudInitEnabled) →
   force_of opts = false →
   Restrict state opts w =
     (({| Action := ""; DataSource := "" |},
       Some (Errorf "cannot restrict cloud-init in error or enabled state")), w))
  ∧ ((state = CloudInitErrored ∨ state = CloudInitEnabled) →
     force_of opts = true →
     Restrict state opts w = Restrict CloudInitUntriggered opts w)
  ∧ ((state = CloudInitUntriggered ∨ state = CloudInitNotFound) →
     ∃ err w',
       Restrict state opts w = (({| Action := "disable"; DataSource := "" |}, err), w')
       ∧ execs w' = execs w
       ∧ if can_disable (files w) root
         then err = None ∧ files w' !! disabledFile root = Some (File "")
         else err ≠ None
              ∧ files w' !! disabledFile root = files w !! disabledFile root).
Proof.
  split; [|split].
  - intros Hs Hf. unfold RestrictCloudInit, force_of in *.
    rewrite decide_False by (by destruct Hs as [-> | ->]).
    rewrite decide_False by (by destruct Hs as [-> | ->]).
    rewrite decide_False by (by destruct Hs as [-> | ->]).
    rewrite decide_True by done. by rewrite Hf.
  - intros Hs Hf.
    rewrite !Restrict_disable; try done; by destruct Hs as [-> | ->].
  - intros Hs.
    rewrite Restrict_disable; try (by destruct Hs as [-> | ->]).
    + destruct (Disable_outcome w) as (err & w' & -> & He & _ & Hc). by eexists _, _.
    + intros [-> | ->]; by destruct Hs.
Qed.

(** C6. In state [CloudInitDone], when the results record is missing or
    unreadable, does not decode, has an empty [v1.datasource] or one that
    the pattern does not match, the call returns an error and the world
    is left as it was: neither marker is written and [CloudInitStatus]
    answers as before. *)
Theorem C6_unusable_record_is_fatal opts w :
  record_unusable json_Decode (files w) root →
  ∃ res err,
    Restrict CloudInitDone opts w = ((res, Some err), w)
    ∧ files (snd (Restrict CloudInitDone opts w)) !! restrictFile root
      = files w !! restrictFile root
    ∧ files (snd (Restrict CloudInitDone opts w)) !! disabledFile root
      = files w !! disabledFile root
    ∧ Status (snd (Restrict CloudInitDone opts w)) = Status w.
Proof.
  intros Hu. destruct (Restrict_done_unusable _ _ opts w Hu) as [err ->].
  by eexists _, _.
Qed.

Lemma record_cases w :
  record_unusable json_Decode (files w) root
  ∨ ∃ ds, records_datasource json_Decode (files w) root ds.
Proof.
  unfold record_unusable, records_datasource.
  destruct (files w !! resultsFile root) as [[data|]|] eqn:Hf; [|by auto|by auto].
  destruct (json_Decode data) as [err|stat] eqn:Hd.
  { left. right. right. exists data. split; [done|]. left. by eexists. }
  destruct (datasourceRe_FindStringSubmatch (v1_DataSource (V1 stat)))
    as [|whole [|ds [|x l]]] eqn:Hm.
  - left. right. right. exists data. split; [done|]. right. exists stat.
    split; [done|]. right. by rewrite Hm.
  - left. right. right. exists data. split; [done|]. right. exists stat.
    split; [done|]. right. by rewrite Hm.
  - right. exists ds, data, stat, whole. by rewrite Hm.
  - left. right. right. exists data. split; [done|]. right. exists stat.
    split; [done|]. right. by rewrite Hm.
Qed.

(** A call that returns no error has written one of the two markers. *)
Lemma Restrict_success_marker (state : CloudInitState) opts w res w1 :
  Restrict state opts w = ((res, None), w1) →
  (Action res = "disable" ∧ is_Some (files w1 !! disabledFile root))
  ∨ (Action res = "restrict" ∧ is_Some (files w1 !! restrictFile root)).
Proof.
  intros Hr.
  assert (Hdis : ∀ ds, (let '(err, w') := DisableCloudInit root w in
                    (({| Action := "disable"; DataSource := ds |}, err), w'))
                   = ((res, None), w1) →
                   Action res = "disable" ∧ is_Some (files w1 !! disabledFile root)).
  { intros ds H. destruct (Disable_outcome w) as (err & w' & Hd & _ & _ & Hc).
    rewrite Hd in H. injection H as <- -> <-.
    destruct (can_disable (files w) root); [|by destruct Hc].
    destruct Hc as [_ ->]. by eauto. }
  destruct (decide (state = CloudInitDone)) as [->|Hdone].
  - destruct (record_cases w) as [Hu|[ds Hds]].
    + destruct (Restrict_done_unusable _ _ opts w Hu) as [err He].
      rewrite He in Hr. done.
    + rewrite (Restrict_done _ _ opts w ds Hds) in Hr. cbv zeta in Hr.
      destruct (_ && _); [left; by eapply Hdis|]. right.
      destruct (Fs.can_write (files w) (restrictFile root)) eqn:Hc.
      * rewrite (WriteFile_can _ _ _ (restrictFile_nonempty root) Hc) in Hr.
        injection Hr as <- <-. split; [done|]. simpl. rewrite lookup_insert_eq. by eauto.
      * destruct (WriteFile_cannot _ (if decide (ds = "NoCloud") then nocloudRestrictYaml
                    else Sprintf_s genericCloudRestrictYamlPattern ds) _ Hc) as [e He].
        rewrite He in Hr. done.
  - left. unfold RestrictCloudInit in Hr. rewrite decide_False in Hr by done.
    repeat case_decide; try done.
    + destruct (negb _); [done|]. apply (Hdis ""). exact Hr.
    + apply (Hdis ""). exact Hr.
Qed.

(** Whatever the state and the outcome, the call keeps the file tree a
    file tree. *)
Lemma Restrict_wf (state : CloudInitState) opts w res err w' :
  Fs.wf (files w) → Restrict state opts w = ((res, err), w') → Fs.wf (files w').
Proof.
  intros Hwf Hr.
  assert (Hdis : ∀ r, (let '(e, w1) := DisableCloudInit root w in ((r, e), w1))
                      = ((res, err), w') → Fs.wf (files w')).
  { intros r. destruct (DisableCloudInit root w) as [e w1] eqn:E.
    intros [= <- <- <-]. by eapply DisableCloudInit_wf. }
  destruct (decide (state = CloudInitDone)) as [->|Hdone].
  - destruct (record_cases w) as [Hu|[ds Hds]].
    + destruct (Restrict_done_unusable _ _ opts w Hu) as [e He].
      rewrite He in Hr. by injection Hr as <- <- <-.
    + rewrite (Restrict_done _ _ opts w ds Hds) in Hr. cbv zeta in Hr.
      destruct (_ && _); [by eapply Hdis|].
      destruct (ioutil_WriteFile _ _ w) as [e w1] eqn:E.
      injection Hr as <- <- <-. by eapply WriteFile_wf.
  - unfold RestrictCloudInit in Hr. rewrite decide_False in Hr by done.
    repeat case_decide; try (by injection Hr as <- <- <-).
    + destruct (negb _); [by injection Hr as <- <- <-|].
      apply (Hdis {| Action := "disable"; DataSource := "" |}). exact Hr.
    + apply (Hdis {| Action := "disable"; DataSource := "" |}). exact Hr.
Qed.

(** C3. When a first call returns no error, whichever of the two actions
    it took, [CloudInitStatus] then reports [CloudInitRestrictedBySnapd] or
    [CloudInitDisabledPermanently] (without an error and without running
    the agent), and a second call with that state returns an error,
    "already restricted" or "already disabled", and changes nothing. *)
Theorem C3_second_call_errors (state1 : CloudInitState) opts1 opts2 w res1 w1 :
  Restrict state1 opts1 w = ((res1, None), w1) →
  (Action res1 = "disable" ∨ Action res1 = "restrict")
  ∧ ∃ state2,
      Status w1 = ((state2, None), w1)
      ∧ (state2 = CloudInitRestrictedBySnapd ∨ state2 = CloudInitDisabledPermanently)
      ∧ ∃ err,
          Restrict state2 opts2 w1 = (({| Action := ""; DataSource := "" |}, Some err), w1)
          ∧ (err = Errorf "cannot restrict cloud-init: already restricted"
             ∨ err = Errorf "cannot restrict cloud-init: already disabled").
Proof.
  intros Hr.
  assert (Hmark : is_Some (files w1 !! restrictFile root)
                  ∨ (files w1 !! restrictFile root = None
                     ∧ is_Some (files w1 !! disabledFile root))).
  { destruct (files w1 !! restrictFile root) eqn:E; [by eauto|]. right. split; [done|].
    destruct (Restrict_success_marker _ _ _ _ _ Hr) as [[_ H]|[_ H]]; [done|].
    rewrite E in H. by destruct H. }
  split.
  { destruct (Restrict_success_marker _ _ _ _ _ Hr) as [[? _]|[? _]]; auto. }
  destruct Hmark as [Hm|[Hn Hm]].
  - exists CloudInitRestrictedBySnapd. split; [by apply CloudInitStatus_restricted|].
    split; [by left|]. eexists. split; [reflexivity|by left].
  - exists CloudInitDisabledPermanently. split; [by apply CloudInitStatus_disabled|].
    split; [by right|]. eexists. split; [reflexivity|by right].
Qed.

Lemma default_options_default opts :
  default_options opts →
  default {| ForceDisable := false; DisableAfterLocalDatasourcesRun := false |} opts
  = {| ForceDisable := false; DisableAfterLocalDatasourcesRun := false |}.
Proof. by intros [-> | ->]. Qed.

(** C1 (as amended). In state [CloudInitDone] with default options, when
    the results record names the datasource NoCloud, the call returns the
    action "restrict" with the datasource "NoCloud". When the restriction
    file can be written (its directory etc/cloud/cloud.cfg.d exists and no
    directory stands at its path) there is no error, the restriction file
    zzzz_snapd.cfg is written, pinning [datasource_list] to [NoCloud],
    setting [fs_label] to null and [manual_cache_clean] to true, and
    [CloudInitStatus] then reports [CloudInitRestrictedBySnapd] without
    running the agent. When it cannot be written the same outcome comes
    with the write error and nothing is written. *)
Theorem C1_NoCloud_is_pinned opts w :
  default_options opts →
  records_datasource json_Decode (files w) root "NoCloud" →
  ∃ err w',
    Restrict CloudInitDone opts w
    = (({| Action := "restrict"; DataSource := "NoCloud" |}, err), w')
    ∧ execs w' = execs w
    ∧ if Fs.can_write (files w) (restrictFile root)
      then err = None
           ∧ files w'
             = <[restrictFile root :=
                   File (lines ["datasource_list: [NoCloud]";
                                "datasource:";
                                "  NoCloud:";
                                "    fs_label: null";
                                "manual_cache_clean: true"])]> (files w)
           ∧ Status w' = ((CloudInitRestrictedBySnapd, None), w')
      else err ≠ None ∧ w' = w.
Proof.
  intros Ho Hds. rewrite (Restrict_done _ _ opts w _ Hds).
  rewrite (default_options_default _ Ho). cbn [DisableAfterLocalDatasourcesRun andb].
  rewrite decide_True by done.
  destruct (Fs.can_write (files w) (restrictFile root)) eqn:Hc.
  - rewrite (WriteFile_can _ _ _ (restrictFile_nonempty root) Hc).
    eexists _, _. split; [reflexivity|]. split; [reflexivity|].
    split; [reflexivity|]. split; [reflexivity|].
    apply CloudInitStatus_restricted. simpl. rewrite lookup_insert_eq. by eauto.
  - destruct (WriteFile_cannot _ nocloudRestrictYaml _ Hc) as [e ->].
    by eexists _, _.
Qed.

(** C4 (as amended). In state [CloudInitDone] with
    [DisableAfterLocalDatasourcesRun] set, when the results record names a
    local datasource ("NoCloud" or "None") and the disable marker can be
    created, the call writes the empty marker etc/cloud/cloud-init.disabled
    and returns the action "disable" (with the datasource, and no error);
    [CloudInitStatus] then reports [CloudInitDisabledPermanently], unless
    the restriction file was already there, which it reports first as
    [CloudInitRestrictedBySnapd]. *)
Theorem C4_local_datasource_is_disabled (o : CloudInitRestrictOptions) w ds :
  DisableAfterLocalDatasourcesRun o = true →
  records_datasource json_Decode (files w) root ds →
  ds = "NoCloud" ∨ ds = "None" →
  can_disable (files w) root = true →
  ∃ w',
    Restrict CloudInitDone (Some o) w
    = (({| Action := "disable"; DataSource := ds |}, None), w')
    ∧ files w' !! disabledFile root = Some (File "")
    ∧ execs w' = execs w
    ∧ Status w'
      = ((match files w !! restrictFile root with
          | Some _ => CloudInitRestrictedBySnapd
          | None => CloudInitDisabledPermanently
          end, None), w').
Proof.
  intros Ho Hds Hl Hc. rewrite (Restrict_done _ _ (Some o) w _ Hds).
  cbv zeta. change (default _ (Some o)) with o. rewrite Ho.
  replace (strutil_ListContains localDatasources ds) with true
    by (by destruct Hl as [-> | ->]).
  cbn [andb].
  destruct (Disable_outcome w) as (err & w' & -> & He & Hr & Hm).
  rewrite Hc in Hm. destruct Hm as [-> Hm].
  exists w'. split; [done|]. split; [done|]. split; [done|].
  destruct (files w !! restrictFile root) eqn:E.
  - apply CloudInitStatus_restricted. rewrite Hr. by eauto.
  - apply CloudInitStatus_disabled; [by rewrite Hr|]. rewrite Hm. by eauto.
Qed.

(** C5. In state [CloudInitDone] with default options, when the raw
    [v1.datasource] field of the results record is
    "DataSourceEc2 [seed=...]", the datasource found is "Ec2" (the suffix
    is stripped) and the call returns the action "restrict" for it; what it
    writes to the restriction file is the one line
    [datasource_list: [Ec2]], without [fs_label] or [manual_cache_clean],
    and the disable marker is not touched. (When the restriction file
    cannot be written the error is returned and nothing is written.) *)
Theorem C5_Ec2_suffix_is_stripped opts w data stat seed :
  default_options opts →
  files w !! resultsFile root = Some (File data) →
  json_Decode data = inr stat →
  v1_DataSource (V1 stat) = "DataSourceEc2 [seed=" +:+ seed +:+ "]" →
  nth 1 (datasourceRe_FindStringSubmatch (v1_DataSource (V1 stat))) "" = "Ec2"
  ∧ ∃ err w',
      Restrict CloudInitDone opts w
      = (({| Action := "restrict"; DataSource := "Ec2" |}, err), w')
      ∧ execs w' = execs w
      ∧ files w' !! disabledFile root = files w !! disabledFile root
      ∧ if Fs.can_write (files w) (restrictFile root)
        then err = None
             ∧ files w'
               = <[restrictFile root := File (lines ["datasource_list: [Ec2]"])]> (files w)
        else err ≠ None ∧ w' = w.
Proof.
  intros Ho Hf Hd Hraw. rewrite Hraw. split; [reflexivity|].
  assert (Hds : records_datasource json_Decode (files w) root "Ec2").
  { exists data, stat. eexists. rewrite Hraw. split; [done|]. split; [done|].
    apply datasourceRe_Ec2. }
  rewrite (Restrict_done _ _ opts w _ Hds).
  rewrite (default_options_default _ Ho). cbn [DisableAfterLocalDatasourcesRun andb].
  rewrite decide_False by done.
  destruct (Fs.can_write (files w) (restrictFile root)) eqn:Hc.
  - rewrite (WriteFile_can _ _ _ (restrictFile_nonempty root) Hc).
    eexists _, _. split; [reflexivity|]. split; [done|]. split; [|done].
    simpl. rewrite lookup_insert_ne; [done|]. apply restrictFile_ne_disabledFile.
  - destruct (WriteFile_cannot _ (Sprintf_s genericCloudRestrictYamlPattern "Ec2") _ Hc)
      as [e ->].
    by eexists _, _.
Qed.

End RestrictClaims.

(** ** What the specification states about the status oracle *)

Section StatusClaims.

Variable GlobalRootDir : list string.
Variable exec_LookPath : gmap (list string) node → string → error + string.
Variable exec_CombinedOutput :
  gmap (list string) node → list string → string * option error.

Local Abbreviation Status :=
  (CloudInitStatus GlobalRootDir exec_LookPath exec_CombinedOutput).
Local Abbreviation root := GlobalRootDir.

Lemma dot_star_line (word rest : string) :
  Forall (λ c, c ≠ newline) (list_ascii_of_string word) →
  dot_star (word +:+ String newline rest) = word.
Proof.
  unfold dot_star. induction word as [|c word IH]; simpl; intros H.
  - done.
  - inversion H as [|? ? Hc Hw]; subst.
    destruct (Ascii.eqb_spec c newline) as [->|_]; [done|]. simpl.
    specialize (IH Hw). destruct (span _ _). simpl in *. by rewrite IH.
Qed.

(** an output whose first line is [status: word] parses into [word] *)
Lemma cloudInitStatusRe_first_line (word rest : string) :
  Forall (λ c, c ≠ newline) (list_ascii_of_string word) →
  cloudInitStatusRe_FindSubmatch ("status: " +:+ word +:+ String newline rest)
  = ["status: " +:+ word; word].
Proof.
  intros H. unfold cloudInitStatusRe_FindSubmatch.
  change (cloudInitStatusRe_from true ("status: " +:+ word +:+ String newline rest))
    with (let w := dot_star (word +:+ String newline rest) in ["status: " +:+ w; w]).
  cbv zeta. by rewrite dot_star_line.
Qed.

(** the agent was found and ran, but the command failed: the state is
    errored, whatever was printed *)
Lemma CloudInitStatus_agent_failed (w : World) (ciBinary out : string) (err : error) :
  files w !! restrictFile root = None →
  files w !! disabledFile root = None →
  exec_LookPath (files w) "cloud-init" = inr ciBinary →
  exec_CombinedOutput (files w) [ciBinary; "status"] = (out, Some err) →
  Status w = ((CloudInitErrored, Some (OutputErr out err)),
              mkWorld (files w) ([ciBinary; "status"] :: execs w)).
Proof.
  intros Hr Hd Hl Hc. unfold CloudInitStatus.
  rewrite Join_cloudInitSnapdRestrictFile, Join_cloudInitDisabledFile.
  unfold mbind, M_bind.
  rewrite FileExists_restrictFile.
  rewrite bool_decide_eq_false_2 by (rewrite Hr; by intros [? ?]).
  rewrite FileExists_disabledFile.
  rewrite bool_decide_eq_false_2 by (rewrite Hd; by intros [? ?]).
  unfold LookPath, CombinedOutput. by rewrite Hl, Hc.
Qed.

(** C10 (as amended). When the markers are absent, the agent is found and
    run, and its output parses into the line [status: word]: if the command
    exits without error, "disabled" gives [CloudInitUntriggered], "error"
    gives [CloudInitErrored], "done" gives [CloudInitDone], and every other
    word, "running" and "not run" among them, gives [CloudInitEnabled],
    without an error; if the command exits with an error the state is
    [CloudInitErrored], with that error, whatever the word. *)
Theorem C10_status_words (w : World) (ciBinary out whole word : string)
    (err : option error) :
  files w !! restrictFile root = None →
  files w !! disabledFile root = None →
  exec_LookPath (files w) "cloud-init" = inr ciBinary →
  exec_CombinedOutput (files w) [ciBinary; "status"] = (out, err) →
  cloudInitStatusRe_FindSubmatch out = [whole; word] →
  match err with
  | Some e => fst (Status w) = (CloudInitErrored, Some (OutputErr out e))
  | None =>
      (word = "disabled" → fst (Status w) = (CloudInitUntriggered, None))
      ∧ (word = "error" → fst (Status w) = (CloudInitErrored, None))
      ∧ (word = "done" → fst (Status w) = (CloudInitDone, None))
      ∧ (word = "running" ∨ word = "not run" → fst (Status w) = (CloudInitEnabled, None))
      ∧ (word ≠ "disabled" → word ≠ "error" → word ≠ "done" →
         fst (Status w) = (CloudInitEnabled, None))
  end.
Proof.
  intros Hr Hd Hl Hc Hm. destruct err as [e|].
  - by rewrite (CloudInitStatus_agent_failed w ciBinary out e Hr Hd Hl Hc).
  - rewrite (CloudInitStatus_agent _ _ _ w ciBinary out Hr Hd Hl Hc).
    rewrite Hm. cbn [length Nat.eqb negb nth fst].
    repeat split.
    + by intros ->.
    + by intros ->.
    + by intros ->.
    + by intros [-> | ->].
    + intros H1 H2 H3. by rewrite !decide_False.
Qed.

End StatusClaims.

(** ** The datasource extractor *)

Section UpperFacts.

Lemma upper_byte_idemp (c : ascii) : upper_byte (upper_byte c) = upper_byte c.
Proof. destruct c as [[] [] [] [] [] [] [] []]; reflexivity. Qed.

(** on ASCII strings, upper-casing twice is upper-casing once *)
Lemma ToUpperASCII_idemp (s : string) : ToUpperASCII (ToUpperASCII s) = ToUpperASCII s.
Proof. induction s as [|c s IH]; simpl; [done|]. by rewrite upper_byte_idemp, IH. Qed.

End UpperFacts.

Section ExtractorFacts.

Variable ToUpper : string → string.

Lemma upper_into_spec (keys : list string) (set : gset string) :
  upper_into ToUpper keys set = list_to_set (ToUpper <$> keys) ∪ set.
Proof.
  unfold upper_into. revert set. induction keys as [|k keys IH]; intros set; simpl.
  - set_solver.
  - rewrite IH. set_solver.
Qed.

Lemma foldl_append {A} (acc : slice A) (l : list A) :
  l ≠ [] → foldl append acc l = Some (slice_elems acc ++ l).
Proof.
  revert acc. induction l as [|x l IH]; intros acc Hl; [done|]. simpl.
  destruct l as [|y l]; [done|]. rewrite IH by done.
  unfold append. simpl. by rewrite <- app_assoc.
Qed.

Lemma foldl_append_upper (l : list string) :
  slice_elems (foldl (λ acc ds, append acc (ToUpper ds)) None l) = ToUpper <$> l.
Proof.
  assert (H : ∀ acc, slice_elems (foldl (λ acc ds, append acc (ToUpper ds)) acc l)
                     = slice_elems acc ++ (ToUpper <$> l)).
  { induction l as [|x l IH]; intros acc; simpl; [by rewrite app_nil_r|].
    rewrite IH. unfold append. simpl. by rewrite <- app_assoc. }
  by rewrite H.
Qed.

Lemma slice_elems_sort (s : slice string) :
  slice_elems (sort_Strings s) = merge_sort String.le (slice_elems s).
Proof. by destruct s. Qed.

(** [Mentioned] is computed from the names up to case alone. *)
Lemma Mentioned_eq (cfg : supportedFilteredCloudConfig) :
  Mentioned (datasourcesInUse ToUpper cfg)
  = sort_Strings (foldl (λ acc ds, append acc (ToUpper ds)) None
                    (elements (names_upto_case ToUpper cfg))).
Proof.
  assert (Hset : ∀ l : list string,
            upper_into ToUpper l (upper_into ToUpper (elements (dom (Reporting cfg)))
                            (upper_into ToUpper (elements (dom (Datasource cfg))) ∅))
            = list_to_set (ToUpper <$> (l ++ elements (dom (Datasource cfg))
                                          ++ elements (dom (Reporting cfg))))).
  { intros l. rewrite !upper_into_spec, !fmap_app, !list_to_set_app_L. set_solver. }
  assert (Hset0 : upper_into ToUpper (elements (dom (Reporting cfg)))
                    (upper_into ToUpper (elements (dom (Datasource cfg))) ∅)
                  = list_to_set (ToUpper <$> (elements (dom (Datasource cfg))
                                               ++ elements (dom (Reporting cfg)))))
    by exact (Hset []).
  unfold names_upto_case, mentioned_names, datasourcesInUse.
  destruct (DatasourceList cfg) as [[|x l]|];
    cbn [default from_option id length Nat.eqb Mentioned app].
  - by rewrite Hset0.
  - by rewrite Hset.
  - by rewrite Hset0.
Qed.

(** the names in [Mentioned] *)
Lemma Mentioned_elems (cfg : supportedFilteredCloudConfig) :
  slice_elems (Mentioned (datasourcesInUse ToUpper cfg))
  = merge_sort String.le (ToUpper <$> elements (names_upto_case ToUpper cfg)).
Proof. by rewrite Mentioned_eq, slice_elems_sort, foldl_append_upper. Qed.

(** the names in [ExplicitlyAllowed] *)
Lemma ExplicitlyAllowed_elems (cfg : supportedFilteredCloudConfig) :
  slice_elems (ExplicitlyAllowed (datasourcesInUse ToUpper cfg))
  = merge_sort String.le
      (elements (list_to_set (ToUpper <$> default [] (DatasourceList cfg)) : gset string)).
Proof.
  unfold datasourcesInUse.
  destruct (DatasourceList cfg) as [[|x l]|];
    cbn [default length Nat.eqb ExplicitlyAllowed].
  - done.
  - rewrite slice_elems_sort, upper_into_spec, union_empty_r_L.
    destruct (elements _) as [|y l'] eqn:E; [done|].
    by rewrite foldl_append.
  - done.
Qed.

Lemma elem_of_merge_sort (l : list string) (x : string) :
  x ∈ merge_sort String.le l ↔ x ∈ l.
Proof. by rewrite merge_sort_Permutation. Qed.

Lemma ExplicitlyAllowed_spec (cfg : supportedFilteredCloudConfig) (x : string) :
  x ∈ slice_elems (ExplicitlyAllowed (datasourcesInUse ToUpper cfg))
  ↔ ∃ n, n ∈ default [] (DatasourceList cfg) ∧ ToUpper n = x.
Proof.
  rewrite ExplicitlyAllowed_elems, elem_of_merge_sort, elem_of_elements,
    elem_of_list_to_set, list_elem_of_fmap.
  split; intros (n & ? & ?); by eauto.
Qed.

(** [strings.ToUpper] changes nothing in a string it has upper-cased. *)
Hypothesis ToUpper_idemp : ∀ s, ToUpper (ToUpper s) = ToUpper s.

Lemma Mentioned_spec (cfg : supportedFilteredCloudConfig) (x : string) :
  x ∈ slice_elems (Mentioned (datasourcesInUse ToUpper cfg)) ↔ x ∈ names_upto_case ToUpper cfg.
Proof.
  rewrite Mentioned_elems, elem_of_merge_sort, list_elem_of_fmap.
  unfold names_upto_case. split.
  - intros (y & -> & Hy). apply elem_of_elements, elem_of_list_to_set in Hy.
    apply list_elem_of_fmap in Hy as (n & -> & Hn).
    rewrite ToUpper_idemp. apply elem_of_list_to_set, list_elem_of_fmap. by eauto.
  - intros Hx. exists x. split; [|by apply elem_of_elements].
    apply elem_of_list_to_set, list_elem_of_fmap in Hx as (n & -> & Hn).
    by rewrite ToUpper_idemp.
Qed.

End ExtractorFacts.

(** ** What the specification states about the datasource extractor *)

Section ExtractorClaims.

Variable yaml_Unmarshal : string → error + supportedFilteredCloudConfig.
Variable ToUpper : string → string.

Local Abbreviation InUse := (cloudDatasourcesInUse yaml_Unmarshal ToUpper).

Implicit Types (w : World) (cfg : supportedFilteredCloudConfig)
  (configFile : list string).

(** A document that is read and decoded gives the result computed from
    the decoded document; nothing changes. *)
Lemma InUse_parsed configFile w b cfg :
  Fs.read_file (files w) configFile = inr b →
  yaml_Unmarshal b = inr cfg →
  InUse configFile w = (inr (datasourcesInUse ToUpper cfg), w).
Proof.
  intros Hr Hy. unfold cloudDatasourcesInUse, mbind, M_bind, ioutil_ReadFile.
  by rewrite Hr, Hy.
Qed.


(** [strings.ToUpper] changes nothing in a string it has upper-cased. The
    code upper-cases the names of [Mentioned] once when it collects them and
    once more when it lists them, those of [ExplicitlyAllowed] once. *)
Hypothesis ToUpper_idemp : ∀ s, ToUpper (ToUpper s) = ToUpper s.

(** C9. For a document that parses, [strings.ToUpper] being idempotent
    (upper-casing an upper-cased name changes nothing): every name of
    [ExplicitlyAllowed] is in [Mentioned]; the names of both lists are
    upper-cased (each is [strings.ToUpper] of a name of the document, and
    upper-casing leaves it as it is); [Mentioned] holds exactly the
    upper-cased names the document mentions, so that a document mentioning
    the same names up to case gives the same [Mentioned]; both lists are
    sorted in ascending (byte-wise lexicographic) order. *)
Theorem C9_mentioned_allowed_upper_sorted configFile w b cfg :
  Fs.read_file (files w) configFile = inr b →
  yaml_Unmarshal b = inr cfg →
  ∃ res,
    InUse configFile w = (inr res, w)
    ∧ (∀ x, x ∈ slice_elems (ExplicitlyAllowed res) → x ∈ slice_elems (Mentioned res))
    ∧ (∀ x, x ∈ slice_elems (ExplicitlyAllowed res)
            ↔ ∃ name, name ∈ default [] (DatasourceList cfg) ∧ ToUpper name = x)
    ∧ (∀ x, x ∈ slice_elems (Mentioned res)
            ↔ ∃ name, name ∈ mentioned_names cfg ∧ ToUpper name = x)
    ∧ (∀ x, x ∈ slice_elems (ExplicitlyAllowed res) ∨ x ∈ slice_elems (Mentioned res) →
            ToUpper x = x)
    ∧ (∀ cfg', names_upto_case ToUpper cfg' = names_upto_case ToUpper cfg →
               Mentioned (datasourcesInUse ToUpper cfg') = Mentioned res)
    ∧ Sorted String.le (slice_elems (ExplicitlyAllowed res))
    ∧ Sorted String.le (slice_elems (Mentioned res)).
Proof.
  intros Hr Hy. rewrite (InUse_parsed _ _ _ _ Hr Hy). eexists. split; [done|].
  assert (Hm : ∀ x, x ∈ slice_elems (Mentioned (datasourcesInUse ToUpper cfg))
                    ↔ ∃ name, name ∈ mentioned_names cfg ∧ ToUpper name = x).
  { intros x. rewrite (Mentioned_spec ToUpper ToUpper_idemp). unfold names_upto_case.
    rewrite elem_of_list_to_set, list_elem_of_fmap.
    split; intros (n & ? & ?); by eauto. }
  assert (Ha : ∀ x, x ∈ slice_elems (ExplicitlyAllowed (datasourcesInUse ToUpper cfg)) →
                    ∃ name, name ∈ mentioned_names cfg ∧ ToUpper name = x).
  { intros x (n & Hn & <-)%ExplicitlyAllowed_spec. exists n. split; [|done].
    unfold mentioned_names. apply elem_of_app. by left. }
  split; [|split; [|split; [|split; [|split; [|split]]]]].
  - intros x Hx. apply Hm. by apply Ha.
  - intros x. apply ExplicitlyAllowed_spec.
  - exact Hm.
  - intros x [H|H]; [apply Ha in H|apply Hm in H];
      destruct H as (n & _ & <-); apply ToUpper_idemp.
  - intros cfg' Heq. by rewrite !Mentioned_eq, Heq.
  - rewrite ExplicitlyAllowed_elems. apply Sorted_merge_sort; apply _.
  - rewrite Mentioned_elems. apply Sorted_merge_sort; apply _.
Qed.

End ExtractorClaims.

(** ** The config installer *)

Section InstallerFacts.

Variable yaml_Unmarshal : string → error + supportedFilteredCloudConfig.
Variable ToUpper : string → string.

Implicit Types (w : World) (p q src wd : list string).

Lemma MkdirAll_frame p w err w' :
  os_MkdirAll p w = (err, w') →
  execs w' = execs w
  ∧ ∀ q, (∀ k, q ≠ take k p) → files w' !! q = files w !! q.
Proof.
  unfold os_MkdirAll, update_files.
  destruct (Fs.mkdir_all [] p (files w)) as [e|fs'] eqn:E; intros [= <- <-]; [done|].
  split; [done|]. intros q Hq. simpl.
  apply (mkdir_all_other _ _ _ _ _ E). intros k _. apply Hq.
Qed.

Lemma write_file_inr (fs fs' : gmap (list string) node) p data :
  Fs.write_file fs p data = inr fs' → fs' = <[p := File data]> fs.
Proof.
  unfold Fs.write_file. destruct p as [|c p]; [done|].
  destruct (Fs.stat fs _) as [[|]|]; [done| |done].
  destruct (fs !! _) as [[|]|]; by intros [= <-].
Qed.

Lemma CopyFile_frame src p w err w' :
  osutil_CopyFile src p w = (err, w') →
  execs w' = execs w ∧ ∀ q, q ≠ p → files w' !! q = files w !! q.
Proof.
  unfold osutil_CopyFile, update_files.
  destruct (Fs.read_file (files w) src) as [e|data]; [by intros [= <- <-]|].
  destruct (Fs.stat (files w) p); [by intros [= <- <-]|].
  destruct (Fs.write_file (files w) p data) as [e|fs'] eqn:E; intros [= <- <-]; [done|].
  split; [done|]. intros q Hq. simpl.
  rewrite (write_file_inr _ _ _ _ E). by rewrite lookup_insert_ne.
Qed.

Lemma InUse_world src w :
  snd (cloudDatasourcesInUse yaml_Unmarshal ToUpper src w) = w.
Proof.
  unfold cloudDatasourcesInUse, mbind, M_bind, ioutil_ReadFile.
  destruct (Fs.read_file _ _); [done|]. by destruct (yaml_Unmarshal _).
Qed.

Lemma take_cloud_dir wd k : ∃ j, take k (wd ++ ["etc"; "cloud"]) = take j (cloudCfgDir wd).
Proof.
  exists (min k (length wd + 2)). unfold cloudCfgDir.
  change (wd ++ ["etc"; "cloud"; "cloud.cfg.d"])
    with (wd ++ (["etc"; "cloud"] ++ ["cloud.cfg.d"])).
  rewrite (app_assoc wd).
  rewrite (take_app_le (wd ++ ["etc"; "cloud"]) ["cloud.cfg.d"])
    by (rewrite length_app; simpl; lia).
  destruct (decide (k ≤ length wd + 2)%nat).
  - by rewrite Nat.min_l.
  - rewrite Nat.min_r by lia.
    rewrite !take_ge; [done| |]; rewrite length_app; simpl; lia.
Qed.

(** the gadget step writes within what the installation owns *)
Lemma installGadget_frame src wd w r w' :
  installGadgetCloudInitCfg yaml_Unmarshal ToUpper src wd w = (r, w') →
  execs w' = execs w
  ∧ ∀ q, ¬ config_owned wd q → files w' !! q = files w !! q.
Proof.
  unfold installGadgetCloudInitCfg.
  rewrite ubuntuDataCloudDir_eq, Join_cloud_cfg_d, Join_gadget_cfg.
  unfold mbind, M_bind, mret, M_ret.
  destruct (os_MkdirAll (cloudCfgDir wd) w) as [e1 w1] eqn:E1.
  apply MkdirAll_frame in E1 as [Hx1 Hf1].
  assert (Hown : ∀ q, ¬ config_owned wd q → files w1 !! q = files w !! q).
  { intros q Hq. apply Hf1. intros k ->. apply Hq. left. by eexists. }
  destruct e1; [by intros [= <- <-]|].
  pose proof (InUse_world src w1) as Hw.
  destruct (cloudDatasourcesInUse yaml_Unmarshal ToUpper src w1) as [r2 w2]. simpl in Hw. subst w2.
  destruct r2; [by intros [= <- <-]|].
  destruct (osutil_CopyFile src _ w1) as [e3 w3] eqn:E3.
  apply CopyFile_frame in E3 as [Hx3 Hf3].
  assert (H3 : execs w3 = execs w
               ∧ ∀ q, ¬ config_owned wd q → files w3 !! q = files w !! q).
  { split; [congruence|]. intros q Hq. rewrite Hf3; [by apply Hown|].
    intros ->. apply Hq. right. by left. }
  destruct e3; by intros [= <- <-].
Qed.

(** ... and so does [DisableCloudInit] *)
Lemma Disable_frame wd w err w' :
  DisableCloudInit wd w = (err, w') →
  execs w' = execs w
  ∧ ∀ q, ¬ config_owned wd q → files w' !! q = files w !! q.
Proof.
  intros Hd.
  assert (Hpre : ∀ q, ¬ config_owned wd q → ∀ k, q ≠ take k (wd ++ ["etc"; "cloud"])).
  { intros q Hq k ->. apply Hq. left. apply take_cloud_dir. }
  destruct (can_disable (files w) wd) eqn:Hc.
  - destruct (DisableCloudInit_can _ _ Hc) as (fs' & He & _ & Hframe).
    rewrite He in Hd. injection Hd as <- <-. split; [done|]. intros q Hq. simpl.
    apply Hframe; [|by apply Hpre]. intros ->. apply Hq. right. by right.
  - destruct (DisableCloudInit_cannot _ _ Hc) as (e & w1 & He & Hx & Hframe).
    rewrite He in Hd. injection Hd as <- <-. split; [done|]. intros q Hq.
    apply Hframe. by apply Hpre.
Qed.

(** a document of the seed area is not among the owned paths *)
Lemma seed_document_not_owned wd (name : string) :
  ¬ config_owned wd (cloudCfgDir wd ++ ["90_" +:+ name]).
Proof.
  intros [[k Hk]|[Hg|Hd]].
  - apply (f_equal length) in Hk. rewrite length_app, length_take in Hk. simpl in Hk. lia.
  - by apply app_inv_head in Hg.
  - apply (f_equal length) in Hd. unfold cloudCfgDir, disabledFile in Hd.
    rewrite !length_app in Hd. simpl in Hd. lia.
Qed.

End InstallerFacts.

(** ** What the specification states about the config installer *)

Section InstallerClaims.

Variable WritableDefaultsDir : string → list string.
Variable yaml_Unmarshal : string → error + supportedFilteredCloudConfig.
Variable ToUpper : string → string.
Variable filepath_Glob :
  gmap (list string) node → list string → list (list string) * option error.

Local Abbreviation configure := (configureCloudInit WritableDefaultsDir yaml_Unmarshal ToUpper filepath_Glob).

(** C2. For a model of grade secured, whatever the seed area holds and
    whether or not the gadget has a cloud.conf: the call changes nothing
    but the directories down to etc/cloud/cloud.cfg.d, the gadget's
    80_device_gadget.cfg and the disable marker, so no seed document
    90_<name> is installed; its outcome does not depend on the seed
    directory; and, when a target is given and cloud-init is allowed, it
    ends with the gadget step: without a gadget cloud.conf it returns nil
    and changes nothing, with one it returns what installing it
    returns (nil when that succeeds) in the world that step leaves. *)
Theorem C2_secured_installs_no_seed_config (model : Model) (opts : Options) (w : World) :
  Grade model = ModelSecured →
  let wd := WritableDefaultsDir (TargetRootDir opts) in
  let gadgetCloudConf := Filepath.Join (Filepath.Clean (GadgetDir opts)) "cloud.conf" in
  ∃ err w',
    configure model opts w = (err, w')
    ∧ execs w' = execs w
    ∧ (∀ p, ¬ config_owned wd p → files w' !! p = files w !! p)
    ∧ (∀ name, files w' !! (cloudCfgDir wd ++ ["90_" +:+ name])
               = files w !! (cloudCfgDir wd ++ ["90_" +:+ name]))
    ∧ (∀ seed, configure model (with_CloudInitSrcDir opts seed) w = (err, w'))
    ∧ (TargetRootDir opts ≠ "" → AllowCloudInit opts = true →
       if bool_decide (is_Some (Fs.stat (files w) gadgetCloudConf))
       then ∃ r, installGadgetCloudInitCfg yaml_Unmarshal ToUpper gadgetCloudConf wd w = (r, w')
                 ∧ err = match r with inl e => Some e | inr _ => None end
       else err = None ∧ w' = w).
Proof.
  intros Hg wd gadgetCloudConf.
  assert (Hseed : ∀ seed, configure model (with_CloudInitSrcDir opts seed) w
                          = configure model opts w).
  { intros seed. unfold configureCloudInit. cbn [with_CloudInitSrcDir TargetRootDir
      AllowCloudInit GadgetDir]. rewrite Hg. reflexivity. }
  assert (Hmain : ∃ err w',
    configure model opts w = (err, w')
    ∧ execs w' = execs w
    ∧ (∀ p, ¬ config_owned wd p → files w' !! p = files w !! p)
    ∧ (TargetRootDir opts ≠ "" → AllowCloudInit opts = true →
       if bool_decide (is_Some (Fs.stat (files w) gadgetCloudConf))
       then ∃ r, installGadgetCloudInitCfg yaml_Unmarshal ToUpper gadgetCloudConf wd w = (r, w')
                 ∧ err = match r with inl e => Some e | inr _ => None end
       else err = None ∧ w' = w)).
  { unfold configureCloudInit. rewrite Hg. case_decide as Ht.
    { eexists _, _. by repeat split. }
    destruct (AllowCloudInit opts).
    - cbn [negb]. unfold HasGadgetCloudConf, osutil_FileExists, mbind, M_bind, mret, M_ret.
      fold gadgetCloudConf. fold wd.
      destruct (bool_decide (is_Some (Fs.stat (files w) gadgetCloudConf))).
      + destruct (installGadgetCloudInitCfg yaml_Unmarshal ToUpper gadgetCloudConf wd w)
          as [r w1] eqn:E.
        destruct (installGadget_frame _ _ _ _ _ _ _ E) as [Hx Hf].
        destruct r as [e|res]; eexists _, _; (split; [reflexivity|]);
          (split; [done|]); (split; [done|]); intros _ _; by eexists.
      + eexists _, _. by repeat split.
    - cbn [negb]. fold wd.
      destruct (DisableCloudInit wd w) as [err w1] eqn:E.
      destruct (Disable_frame _ _ _ _ E) as [Hx Hf].
      eexists _, _. by repeat split. }
  destruct Hmain as (err & w' & Hc & Hx & Hf & Hend).
  exists err, w'. split; [done|]. split; [done|]. split; [done|].
  split; [|split; [|done]].
  - intros name. apply Hf, seed_document_not_owned.
  - intros seed. by rewrite Hseed.
Qed.

End InstallerClaims.

(** ** Worked examples on the sample host *)

Section Examples.

Import Sample.

Local Abbreviation nocloud_raw := "DataSourceNoCloud [seed=/dev/sr0][dsmode=net]".
Local Abbreviation ec2_raw := "DataSourceEc2 [seed=x]".
Local Abbreviation Restrict := (RestrictCloudInit [] json_Decode).
Local Abbreviation Status := (CloudInitStatus [] exec_LookPath (agent "done")).
Local Abbreviation disable_local :=
  {| ForceDisable := false; DisableAfterLocalDatasourcesRun := true |}.
Local Abbreviation the_error err :=
  (match err with Some e => e | None => LibraryError "" end).

(** the record of [world_done raw] and its relatives names what the
    pattern finds in [raw] *)
Lemma sample_record_NoCloud :
  records_datasource json_Decode (files (world_done nocloud_raw)) [] "NoCloud".
Proof.
  exists (status_json nocloud_raw), {| V1 := {| v1_DataSource := nocloud_raw |} |},
         "DataSourceNoCloud [seed=/dev/sr0][dsmode=net]".
  repeat split; vm_compute; reflexivity.
Qed.

Lemma sample_record_no_etc :
  records_datasource json_Decode (files (world_done_no_etc nocloud_raw)) [] "NoCloud".
Proof.
  exists (status_json nocloud_raw), {| V1 := {| v1_DataSource := nocloud_raw |} |},
         "DataSourceNoCloud [seed=/dev/sr0][dsmode=net]".
  repeat split; vm_compute; reflexivity.
Qed.

Lemma sample_record_None :
  records_datasource json_Decode (files (world_done "DataSourceNone")) [] "None".
Proof.
  exists (status_json "DataSourceNone"), {| V1 := {| v1_DataSource := "DataSourceNone" |} |},
         "DataSourceNone".
  repeat split; vm_compute; reflexivity.
Qed.

Lemma sample_record_restricted :
  records_datasource json_Decode (files (world_done_restricted "DataSourceNone")) [] "None".
Proof.
  exists (status_json "DataSourceNone"), {| V1 := {| v1_DataSource := "DataSourceNone" |} |},
         "DataSourceNone".
  repeat split; vm_compute; reflexivity.
Qed.

Lemma sample_record_etc_is_file :
  records_datasource json_Decode (files (world_etc_is_file "DataSourceNone")) [] "None".
Proof.
  exists (status_json "DataSourceNone"), {| V1 := {| v1_DataSource := "DataSourceNone" |} |},
         "DataSourceNone".
  repeat split; vm_compute; reflexivity.
Qed.

(** the sample worlds are file trees *)
Lemma sample_worlds_wf :
  Fs.wf (files (world_done nocloud_raw))
  ∧ Fs.wf (files (world_done_no_etc nocloud_raw))
  ∧ Fs.wf (files (world_done_restricted "DataSourceNone"))
  ∧ Fs.wf (files (world_etc_is_file "DataSourceNone"))
  ∧ Fs.wf (files world_empty)
  ∧ Fs.wf (files (world_install doc_maas)).
Proof. repeat apply conj; apply (bool_decide_unpack _); vm_compute; exact I. Qed.

(** C1, on a device with /etc/cloud/cloud.cfg.d, and on one without. *)
Lemma C1_witness :
  (∃ w', Restrict CloudInitDone None (world_done nocloud_raw)
         = (({| Action := "restrict"; DataSource := "NoCloud" |}, None), w')
         ∧ files w' !! restrictFile [] = Some (File nocloudRestrictYaml)
         ∧ Status w' = ((CloudInitRestrictedBySnapd, None), w'))
  ∧ (∃ err, Restrict CloudInitDone None (world_done_no_etc nocloud_raw)
            = (({| Action := "restrict"; DataSource := "NoCloud" |}, Some err),
               world_done_no_etc nocloud_raw)).
Proof.
  split.
  - destruct (C1_NoCloud_is_pinned [] json_Decode exec_LookPath (agent "done")
                None (world_done nocloud_raw))
      as (err & w' & H1 & _ & H3).
    + by left.
    + exact sample_record_NoCloud.
    + replace (Fs.can_write (files (world_done nocloud_raw)) (restrictFile []))
        with true in H3 by (vm_compute; reflexivity).
      destruct H3 as (-> & H2 & H4).
      exists w'. split; [exact H1|]. split; [|exact H4].
      rewrite H2. apply lookup_insert_eq.
  - destruct (C1_NoCloud_is_pinned [] json_Decode exec_LookPath (agent "done")
                None (world_done_no_etc nocloud_raw))
      as (err & w' & H1 & _ & H3).
    + by left.
    + exact sample_record_no_etc.
    + replace (Fs.can_write (files (world_done_no_etc nocloud_raw)) (restrictFile []))
        with false in H3 by (vm_compute; reflexivity).
      destruct H3 as [H3 ->]. destruct err as [err|]; [|by destruct H3].
      exists err. exact H1.
Defined.

(** C1 as stated fails where /etc/cloud/cloud.cfg.d does not exist: the
    state is done, the options are default and the record names NoCloud,
    but the write fails, no restriction file appears, and
    [CloudInitStatus] runs the agent and reports [CloudInitDone]. *)
Lemma C1_counterexample :
  records_datasource json_Decode (files (world_done_no_etc nocloud_raw)) [] "NoCloud"
  ∧ ∃ err w',
      Restrict CloudInitDone None (world_done_no_etc nocloud_raw)
      = (({| Action := "restrict"; DataSource := "NoCloud" |}, Some err), w')
      ∧ files w' !! restrictFile [] = None
      ∧ fst (Status w') = (CloudInitDone, None)
      ∧ execs (snd (Status w')) = [["/usr/bin/cloud-init"; "status"]].
Proof.
  split; [exact sample_record_no_etc|].
  exists (the_error (snd (fst (Restrict CloudInitDone None (world_done_no_etc nocloud_raw))))),
         (world_done_no_etc nocloud_raw).
  repeat split; vm_compute; reflexivity.
Qed.

(** C3, after disabling in the untriggered state. *)
Lemma C3_witness :
  let r := Restrict CloudInitUntriggered None world_empty in
  r = ((fst (fst r), None), snd r)
  ∧ ∃ state2,
      Status (snd r) = ((state2, None), snd r)
      ∧ (state2 = CloudInitRestrictedBySnapd ∨ state2 = CloudInitDisabledPermanently)
      ∧ ∃ err, Restrict state2 (Some disable_local) (snd r)
               = (({| Action := ""; DataSource := "" |}, Some err), snd r).
Proof.
  intros r.
  assert (Hr : r = ((fst (fst r), None), snd r)) by (vm_compute; reflexivity).
  split; [exact Hr|].
  destruct (C3_second_call_errors [] json_Decode exec_LookPath (agent "done")
              CloudInitUntriggered None (Some disable_local) world_empty _ _ Hr)
    as (_ & state2 & H1 & H2 & err & H3 & _).
  exists state2. split; [exact H1|]. split; [exact H2|]. exists err. exact H3.
Defined.

(** C4, for the datasource None. *)
Lemma C4_witness :
  ∃ w', Restrict CloudInitDone (Some disable_local) (world_done "DataSourceNone")
        = (({| Action := "disable"; DataSource := "None" |}, None), w')
        ∧ files w' !! disabledFile [] = Some (File "")
        ∧ Status w' = ((CloudInitDisabledPermanently, None), w').
Proof.
  destruct (C4_local_datasource_is_disabled [] json_Decode exec_LookPath (agent "done")
              disable_local (world_done "DataSourceNone") "None")
    as (w' & H1 & H2 & _ & H4).
  - reflexivity.
  - exact sample_record_None.
  - by right.
  - vm_compute. reflexivity.
  - exists w'. split; [exact H1|]. split; [exact H2|]. exact H4.
Defined.

(** C4 as stated fails in two ways. With the restriction file already
    there (the state passed is done all the same) the marker is written
    but [CloudInitStatus] reports [CloudInitRestrictedBySnapd]. With a
    regular file at /etc the marker cannot be created: the call returns
    the error, and [CloudInitStatus] reports [CloudInitDone]. *)
Lemma C4_counterexample :
  (records_datasource json_Decode (files (world_done_restricted "DataSourceNone")) [] "None"
   ∧ ∃ w', Restrict CloudInitDone (Some disable_local)
             (world_done_restricted "DataSourceNone")
           = (({| Action := "disable"; DataSource := "None" |}, None), w')
           ∧ files w' !! disabledFile [] = Some (File "")
           ∧ fst (Status w') = (CloudInitRestrictedBySnapd, None))
  ∧ (records_datasource json_Decode (files (world_etc_is_file "DataSourceNone")) [] "None"
     ∧ ∃ err w', Restrict CloudInitDone (Some disable_local)
                   (world_etc_is_file "DataSourceNone")
                 = (({| Action := "disable"; DataSource := "None" |}, Some err), w')
                 ∧ files w' !! disabledFile [] = None
                 ∧ fst (Status w') = (CloudInitDone, None)).
Proof.
  split; (split; [first [exact sample_record_restricted | exact sample_record_etc_is_file]|]).
  - exists (snd (Restrict CloudInitDone (Some disable_local)
                   (world_done_restricted "DataSourceNone"))).
    repeat split; vm_compute; reflexivity.
  - exists (the_error (snd (fst (Restrict CloudInitDone (Some disable_local)
                                   (world_etc_is_file "DataSourceNone"))))),
           (world_etc_is_file "DataSourceNone").
    repeat split; vm_compute; reflexivity.
Qed.

(** C5, with and without /etc/cloud/cloud.cfg.d. *)
Lemma C5_witness :
  (∃ w', Restrict CloudInitDone None (world_done ec2_raw)
         = (({| Action := "restrict"; DataSource := "Ec2" |}, None), w')
         ∧ files w' !! restrictFile [] = Some (File (lines ["datasource_list: [Ec2]"])))
  ∧ (∃ err, Restrict CloudInitDone None (world_done_no_etc ec2_raw)
            = (({| Action := "restrict"; DataSource := "Ec2" |}, Some err),
               world_done_no_etc ec2_raw)).
Proof.
  split.
  - destruct (C5_Ec2_suffix_is_stripped [] json_Decode None (world_done ec2_raw)
                (status_json ec2_raw) {| V1 := {| v1_DataSource := ec2_raw |} |} "x")
      as (_ & err & w' & H1 & _ & _ & H4).
    + by left.
    + vm_compute. reflexivity.
    + vm_compute. reflexivity.
    + reflexivity.
    + replace (Fs.can_write (files (world_done ec2_raw)) (restrictFile [])) with true in H4
        by (vm_compute; reflexivity).
      destruct H4 as [-> H4]. exists w'. split; [exact H1|].
      rewrite H4. apply lookup_insert_eq.
  - destruct (C5_Ec2_suffix_is_stripped [] json_Decode None (world_done_no_etc ec2_raw)
                (status_json ec2_raw) {| V1 := {| v1_DataSource := ec2_raw |} |} "x")
      as (_ & err & w' & H1 & _ & _ & H4).
    + by left.
    + vm_compute. reflexivity.
    + vm_compute. reflexivity.
    + reflexivity.
    + replace (Fs.can_write (files (world_done_no_etc ec2_raw)) (restrictFile []))
        with false in H4 by (vm_compute; reflexivity).
      destruct H4 as [H4 ->]. destruct err as [err|]; [|by destruct H4].
      exists err. exact H1.
Defined.

(** C6, with a record whose datasource has no name, and with no record. *)
Lemma C6_witness :
  (∃ res err, Restrict CloudInitDone None (world_done "DataSource [seed=/dev/sr0]")
              = ((res, Some err), world_done "DataSource [seed=/dev/sr0]"))
  ∧ (∃ res err, Restrict CloudInitDone None world_empty = ((res, Some err), world_empty)).
Proof.
  split.
  - destruct (C6_unusable_record_is_fatal [] json_Decode exec_LookPath (agent "done")
                None (world_done "DataSource [seed=/dev/sr0]"))
      as (res & err & H & _).
    + right. right. exists (status_json "DataSource [seed=/dev/sr0]").
      split; [vm_compute; reflexivity|].
      right. exists {| V1 := {| v1_DataSource := "DataSource [seed=/dev/sr0]" |} |}.
      split; [vm_compute; reflexivity|]. right. vm_compute. lia.
    + exists res, err. exact H.
  - destruct (C6_unusable_record_is_fatal [] json_Decode exec_LookPath (agent "done")
                None world_empty)
      as (res & err & H & _).
    + left. reflexivity.
    + exists res, err. exact H.
Defined.

(** C7, with nothing in the way of the marker. *)
Lemma C7_witness :
  (∃ err, Restrict CloudInitEnabled None world_empty
          = (({| Action := ""; DataSource := "" |}, Some err), world_empty))
  ∧ Restrict CloudInitErrored
      (Some {| ForceDisable := true; DisableAfterLocalDatasourcesRun := false |})
      world_empty
    = Restrict CloudInitUntriggered
        (Some {| ForceDisable := true; DisableAfterLocalDatasourcesRun := false |})
        world_empty
  ∧ ∃ w', Restrict CloudInitNotFound None world_empty
          = (({| Action := "disable"; DataSource := "" |}, None), w')
          ∧ files w' !! disabledFile [] = Some (File "").
Proof.
  split; [|split].
  - destruct (C7_states_outside_done [] json_Decode CloudInitEnabled None world_empty)
      as (H & _ & _).
    eexists. apply H; [by right|reflexivity].
  - destruct (C7_states_outside_done [] json_Decode CloudInitErrored
                (Some {| ForceDisable := true; DisableAfterLocalDatasourcesRun := false |})
                world_empty)
      as (_ & H & _).
    apply H; [by left|reflexivity].
  - destruct (C7_states_outside_done [] json_Decode CloudInitNotFound None world_empty)
      as (_ & _ & H).
    destruct H as (err & w' & H1 & _ & H3); [by right|].
    replace (can_disable (files world_empty) []) with true in H3
      by (vm_compute; reflexivity).
    destruct H3 as [-> H3]. exists w'. split; [exact H1|exact H3].
Defined.

(** C7 as stated fails with a regular file at /etc: in the untriggered
    state the call returns the action "disable" with an error, and writes
    no marker. *)
Lemma C7_counterexample :
  ∃ err w', Restrict CloudInitUntriggered None (world_etc_is_file "DataSourceNone")
            = (({| Action := "disable"; DataSource := "" |}, Some err), w')
            ∧ files w' !! disabledFile [] = None.
Proof.
  exists (the_error (snd (fst (Restrict CloudInitUntriggered None
                                 (world_etc_is_file "DataSourceNone"))))),
         (world_etc_is_file "DataSourceNone").
  split; vm_compute; reflexivity.
Qed.

(** C10, for an agent that reports "not run" and exits without error: the
    state is enabled; and for one that reports "not run" and fails: the
    state is errored. *)
Lemma C10_witness :
  fst (CloudInitStatus [] exec_LookPath (agent "not run") (world_done nocloud_raw))
  = (CloudInitEnabled, None)
  ∧ fst (CloudInitStatus [] exec_LookPath (agent_failing "not run") (world_done nocloud_raw))
    = (CloudInitErrored,
       Some (OutputErr ("status: not run" +:+ nl) (LibraryError "exit status 2"))).
Proof.
  split.
  - destruct (C10_status_words [] exec_LookPath (agent "not run") (world_done nocloud_raw)
                "/usr/bin/cloud-init" ("status: not run" +:+ nl) "status: not run" "not run"
                None)
      as (_ & _ & _ & H & _).
    + vm_compute. reflexivity.
    + vm_compute. reflexivity.
    + vm_compute. reflexivity.
    + vm_compute. reflexivity.
    + vm_compute. reflexivity.
    + apply H. by right.
  - apply (C10_status_words [] exec_LookPath (agent_failing "not run")
             (world_done nocloud_raw)
             "/usr/bin/cloud-init" ("status: not run" +:+ nl) "status: not run" "not run"
             (Some (LibraryError "exit status 2"))).
    + vm_compute. reflexivity.
    + vm_compute. reflexivity.
    + vm_compute. reflexivity.
    + vm_compute. reflexivity.
    + vm_compute. reflexivity.
Defined.

(** C10 as stated fails when the status command exits with an error: the
    agent prints [status: done], which parses into the word "done", and
    [CloudInitStatus] reports [CloudInitErrored] with the error of the
    command, not [CloudInitDone]. *)
Lemma C10_counterexample :
  ∃ out e,
    exec_LookPath (files (world_done nocloud_raw)) "cloud-init" = inr "/usr/bin/cloud-init"
    ∧ agent_failing "done" (files (world_done nocloud_raw)) ["/usr/bin/cloud-init"; "status"]
      = (out, Some e)
    ∧ cloudInitStatusRe_FindSubmatch out = ["status: done"; "done"]
    ∧ fst (CloudInitStatus [] exec_LookPath (agent_failing "done") (world_done nocloud_raw))
      = (CloudInitErrored, Some (OutputErr out e))
    ∧ fst (CloudInitStatus [] exec_LookPath (agent_failing "done") (world_done nocloud_raw))
      ≠ (CloudInitDone, None).
Proof.
  exists ("status: done" +:+ nl), (LibraryError "exit status 2").
  repeat split; try (vm_compute; reflexivity).
  vm_compute. discriminate.
Qed.

Local Abbreviation configure :=
  (configureCloudInit WritableDefaultsDir yaml_Unmarshal ToUpperASCII filepath_Glob).
Local Abbreviation InUse := (cloudDatasourcesInUse yaml_Unmarshal ToUpperASCII).
Local Abbreviation target_cfg_dir :=
  ["target"; "_writable_defaults"; "etc"; "cloud"; "cloud.cfg.d"].

(** C2, with a gadget cloud.conf and a seed document user.cfg: the
    gadget's document is installed, 90_user.cfg is not. *)
Lemma C2_witness :
  ∃ w', configure {| Grade := ModelSecured |} install_options (world_install doc_maas)
        = (None, w')
        ∧ files w' !! (target_cfg_dir ++ ["80_device_gadget.cfg"]) = Some (File doc_maas)
        ∧ files w' !! (target_cfg_dir ++ ["90_user.cfg"]) = None.
Proof.
  destruct (C2_secured_installs_no_seed_config WritableDefaultsDir yaml_Unmarshal
              ToUpperASCII filepath_Glob
              {| Grade := ModelSecured |} install_options (world_install doc_maas))
    as (err & w' & H1 & _ & _ & H4 & _).
  - reflexivity.
  - assert (He : err = None).
    { change err with (fst (err, w')). rewrite <- H1. vm_compute. reflexivity. }
    assert (Hw : files w' !! (target_cfg_dir ++ ["80_device_gadget.cfg"])
                 = Some (File doc_maas)).
    { change w' with (snd (err, w')). rewrite <- H1. vm_compute. reflexivity. }
    exists w'. split; [rewrite <- He; exact H1|]. split; [exact Hw|].
    etransitivity; [exact (H4 "user.cfg")|]. vm_compute. reflexivity.
Defined.

(** for grade dangerous the seed document is installed *)
Example dangerous_installs_seed_config :
  ∃ w', configure {| Grade := ModelDangerous |} install_options (world_install doc_maas)
        = (None, w')
        ∧ files w' !! (target_cfg_dir ++ ["80_device_gadget.cfg"]) = Some (File doc_maas)
        ∧ files w' !! (target_cfg_dir ++ ["90_user.cfg"]) = Some (File doc_maas_upper)
        ∧ files w' !! (target_cfg_dir ++ ["90_notes.txt"]) = None.
Proof.
  exists (snd (configure {| Grade := ModelDangerous |} install_options
                 (world_install doc_maas))).
  repeat split; vm_compute; reflexivity.
Qed.


(** C9, for a document that spells MAAS in three ways. *)
Lemma C9_witness :
  ∃ res,
    InUse ["gadget"; "cloud.conf"] (world_install doc_maas)
    = (inr res, world_install doc_maas)
    ∧ (∀ x, x ∈ slice_elems (ExplicitlyAllowed res) → x ∈ slice_elems (Mentioned res))
    ∧ (∀ x, x ∈ slice_elems (Mentioned res) → ToUpperASCII x = x)
    ∧ Mentioned (datasourcesInUse ToUpperASCII cfg_maas_upper) = Mentioned res
    ∧ Sorted String.le (slice_elems (ExplicitlyAllowed res))
    ∧ Sorted String.le (slice_elems (Mentioned res)).
Proof.
  destruct (C9_mentioned_allowed_upper_sorted yaml_Unmarshal ToUpperASCII ToUpperASCII_idemp
              ["gadget"; "cloud.conf"] (world_install doc_maas) doc_maas cfg_maas)
    as (res & H1 & H2 & _ & _ & H5 & H6 & H7 & H8).
  - vm_compute. reflexivity.
  - vm_compute. reflexivity.
  - exists res. split; [exact H1|]. split; [exact H2|].
    split; [intros x Hx; apply H5; by right|].
    split; [|exact (conj H7 H8)].
    apply H6. vm_compute. reflexivity.
Defined.

(** maas, MAAS and Maas are one name *)
Example maas_in_three_spellings :
  datasourcesInUse ToUpperASCII cfg_maas
  = {| ExplicitlyAllowed := Some ["MAAS"; "NOCLOUD"];
       ExplicitlyNoneAllowed := false;
       Mentioned := Some ["MAAS"; "NOCLOUD"] |}.
Proof. vm_compute. reflexivity. Qed.

End Examples.
